(** * AppointmentForm: validation, submission and date/time splicing

    A shallow embedding of [src/components/AppointmentForm.tsx].

    The component is a React function component.  Its handlers are closures
    over the props and over the state snapshot of the current render; each
    handler is embedded as a function from that snapshot (and from what it
    reads of the host: the clock, [Platform.OS], the local time zone) to the
    next state and the list of [onSubmit] calls it made.

    The handlers call the built-in [Date] object.  Its methods are embedded
    from ECMA-262 (section "Date Objects"), under the names the standard
    gives to its abstract operations. *)

From Stdlib Require Import ZArith Lia.
From stdpp Require Import gmap strings.

Open Scope Z_scope.

(** ** ECMAScript numbers and time values

    Every number that flows through the handlers is either an integer far
    below 2^53 in magnitude (a time value, or a field read back from one) or
    NaN, so double arithmetic on them is exact integer arithmetic.  [None]
    is NaN. *)

Module ES.

Definition Number : Type := option Z.

Definition NaN : Number := None.

Definition HoursPerDay : Z := 24.
Definition MinutesPerHour : Z := 60.
Definition SecondsPerMinute : Z := 60.
Definition msPerSecond : Z := 1000.
Definition msPerMinute : Z := 60000.
Definition msPerHour : Z := 3600000.
Definition msPerDay : Z := 86400000.

(** The largest magnitude of a time value: 8.64e15 ms. *)
Definition maxTime : Z := 8640000000000000.

(** *** Day number and time within day *)

Definition Day (t : Z) : Z := t / msPerDay.

Definition TimeWithinDay (t : Z) : Z := t mod msPerDay.

(** *** Year number *)

Definition isLeapYear (y : Z) : bool :=
  if negb (y mod 4 =? 0) then false
  else if negb (y mod 100 =? 0) then true
  else if negb (y mod 400 =? 0) then false
  else true.

Definition DaysInYear (y : Z) : Z := if isLeapYear y then 366 else 365.

Definition DayFromYear (y : Z) : Z :=
  365 * (y - 1970) + (y - 1969) / 4 - (y - 1901) / 100 + (y - 1601) / 400.

Definition TimeFromYear (y : Z) : Z := msPerDay * DayFromYear y.

(** The year whose first day is the last one at or before day [d].  The
    standard defines it as "the largest integer y such that TimeFromYear(y)
    <= t"; it is computed here from the mean length of a year, 146097/400
    days, which is off by at most one, and then adjusted (see
    [YearFromDay_spec] and [YearFromDay_unique] below). *)
Definition YearFromDay (d : Z) : Z :=
  let y := 1970 + (400 * d) / 146097 in
  if d <? DayFromYear y then y - 1
  else if DayFromYear (y + 1) <=? d then y + 1
  else y.

Definition YearFromTime (t : Z) : Z := YearFromDay (Day t).

Definition InLeapYear (t : Z) : Z :=
  if isLeapYear (YearFromTime t) then 1 else 0.

(** *** Month number and date number *)

Definition DayWithinYear (t : Z) : Z := Day t - DayFromYear (YearFromTime t).

Definition MonthFromTime (t : Z) : Z :=
  let d := DayWithinYear t in
  let leap := InLeapYear t in
  if d <? 31 then 0
  else if d <? 59 + leap then 1
  else if d <? 90 + leap then 2
  else if d <? 120 + leap then 3
  else if d <? 151 + leap then 4
  else if d <? 181 + leap then 5
  else if d <? 212 + leap then 6
  else if d <? 243 + leap then 7
  else if d <? 273 + leap then 8
  else if d <? 304 + leap then 9
  else if d <? 334 + leap then 10
  else 11.

Definition DateFromTime (t : Z) : Z :=
  let d := DayWithinYear t in
  let leap := InLeapYear t in
  match MonthFromTime t with
  | 0 => d + 1
  | 1 => d - 30
  | 2 => d - 58 - leap
  | 3 => d - 89 - leap
  | 4 => d - 119 - leap
  | 5 => d - 150 - leap
  | 6 => d - 180 - leap
  | 7 => d - 211 - leap
  | 8 => d - 242 - leap
  | 9 => d - 272 - leap
  | 10 => d - 303 - leap
  | _ => d - 333 - leap
  end.

(** *** Hours, minutes, seconds and milliseconds *)

Definition HourFromTime (t : Z) : Z := (t / msPerHour) mod HoursPerDay.
Definition MinFromTime (t : Z) : Z := (t / msPerMinute) mod MinutesPerHour.
Definition SecFromTime (t : Z) : Z := (t / msPerSecond) mod SecondsPerMinute.
Definition msFromTime (t : Z) : Z := t mod msPerSecond.

(** *** MakeTime, MakeDay, MakeDate, TimeClip

    Each returns NaN as soon as one argument is not finite. *)

Definition MakeTime (hour min sec ms : Number) : Number :=
  h ← hour; m ← min; s ← sec; milli ← ms;
  Some (h * msPerHour + m * msPerMinute + s * msPerSecond + milli).

(** Days from the start of a year to the start of month [mn] (0..11). *)
Definition DayFromMonth (mn : Z) (leap : Z) : Z :=
  match mn with
  | 0 => 0
  | 1 => 31
  | 2 => 59 + leap
  | 3 => 90 + leap
  | 4 => 120 + leap
  | 5 => 151 + leap
  | 6 => 181 + leap
  | 7 => 212 + leap
  | 8 => 243 + leap
  | 9 => 273 + leap
  | 10 => 304 + leap
  | _ => 334 + leap
  end.

(** "Find a finite time value t such that YearFromTime(t) is ym,
    MonthFromTime(t) is mn, and DateFromTime(t) is 1; return Day(t) + dt - 1":
    the day of that [t] is the first day of year [ym] plus the days before
    month [mn] (see [MakeDay_finds] below).  The standard returns NaN when
    an argument is too far out of range for such a [t] to exist; the handlers
    only pass fields read back from valid dates, and a day beyond the range
    of time values ends as NaN in [TimeClip]. *)
Definition MakeDay (year month date : Number) : Number :=
  y ← year; m ← month; dt ← date;
  let ym := y + m / 12 in
  let mn := m mod 12 in
  let day_t := DayFromYear ym + DayFromMonth mn (if isLeapYear ym then 1 else 0) in
  Some (day_t + dt - 1).

Definition MakeDate (day time : Number) : Number :=
  d ← day; tm ← time; Some (d * msPerDay + tm).

Definition TimeClip (time : Number) : Number :=
  t ← time; if maxTime <? Z.abs t then NaN else Some t.

(** The number of days of month [mn] (0..11) of year [y].  The standard has
    no such operation; it states when a date number exists in a month. *)
Definition DaysInMonth (y mn : Z) : Z :=
  match mn with
  | 1 => if isLeapYear y then 29 else 28
  | 3 | 5 | 8 | 10 => 30
  | _ => 31
  end.


(** *** Date objects

    A [Date] object holds one time value, NaN for an invalid date.  The
    handlers only mutate a copy they have just made, so a [Date] is embedded
    as a value and a setter as a function to the updated object. *)

Record Date : Type := mkDate { DateValue : Number }.

(** [new Date(value)] where [value] is a [Date] object. *)
Definition Date_copy (value : Date) : Date :=
  mkDate (TimeClip (DateValue value)).

(** [valueOf], which the relational operators use to turn a [Date] into a
    number. *)
Definition valueOf (d : Date) : Number := DateValue d.

(** [a < b] on numbers: false as soon as one side is NaN. *)
Definition Number_lt (a b : Number) : bool :=
  match a, b with
  | Some x, Some y => x <? y
  | _, _ => false
  end.

(** [a < b] on two [Date] objects. *)
Definition Date_lt (a b : Date) : bool := Number_lt (valueOf a) (valueOf b).

(** *** Local time

    [LocalTZA t isUTC] is the host's offset of local time from UTC, in
    milliseconds, at the time value [t] (a UTC time value when [isUTC], a
    local one otherwise). *)

Section LocalTimeZone.

Variable LocalTZA : Z -> bool -> Z.

Definition LocalTime (t : Z) : Z := t + LocalTZA t true.

Definition UTC (t : Z) : Z := t - LocalTZA t false.


(** *** Methods of [Date.prototype] that read or write local time *)

Definition getFullYear (d : Date) : Number :=
  t ← DateValue d; Some (YearFromTime (LocalTime t)).

Definition getMonth (d : Date) : Number :=
  t ← DateValue d; Some (MonthFromTime (LocalTime t)).

Definition getDate (d : Date) : Number :=
  t ← DateValue d; Some (DateFromTime (LocalTime t)).

Definition getHours (d : Date) : Number :=
  t ← DateValue d; Some (HourFromTime (LocalTime t)).

Definition getMinutes (d : Date) : Number :=
  t ← DateValue d; Some (MinFromTime (LocalTime t)).

Definition getSeconds (d : Date) : Number :=
  t ← DateValue d; Some (SecFromTime (LocalTime t)).

Definition getMilliseconds (d : Date) : Number :=
  t ← DateValue d; Some (msFromTime (LocalTime t)).

(** [setFullYear(year)]: an invalid date is taken as time value +0. *)
Definition setFullYear (d : Date) (year : Number) : Date :=
  let t := match DateValue d with
           | None => 0
           | Some t => LocalTime t
           end in
  let newDate :=
    MakeDate (MakeDay year (Some (MonthFromTime t)) (Some (DateFromTime t)))
             (Some (TimeWithinDay t)) in
  mkDate (TimeClip (UTC <$> newDate)).

(** [setMonth(month)]. *)
Definition setMonth (d : Date) (month : Number) : Date :=
  match DateValue d with
  | None => d
  | Some t =>
      let t := LocalTime t in
      let newDate :=
        MakeDate (MakeDay (Some (YearFromTime t)) month (Some (DateFromTime t)))
                 (Some (TimeWithinDay t)) in
      mkDate (TimeClip (UTC <$> newDate))
  end.

(** [setDate(date)]. *)
Definition setDate (d : Date) (date : Number) : Date :=
  match DateValue d with
  | None => d
  | Some t =>
      let t := LocalTime t in
      let newDate :=
        MakeDate (MakeDay (Some (YearFromTime t)) (Some (MonthFromTime t)) date)
                 (Some (TimeWithinDay t)) in
      mkDate (TimeClip (UTC <$> newDate))
  end.

(** [setHours(hour)]. *)
Definition setHours (d : Date) (hour : Number) : Date :=
  match DateValue d with
  | None => d
  | Some t =>
      let t := LocalTime t in
      let date :=
        MakeDate (Some (Day t))
                 (MakeTime hour (Some (MinFromTime t)) (Some (SecFromTime t))
                           (Some (msFromTime t))) in
      mkDate (TimeClip (UTC <$> date))
  end.

(** [setMinutes(min)]. *)
Definition setMinutes (d : Date) (min : Number) : Date :=
  match DateValue d with
  | None => d
  | Some t =>
      let t := LocalTime t in
      let date :=
        MakeDate (Some (Day t))
                 (MakeTime (Some (HourFromTime t)) min (Some (SecFromTime t))
                           (Some (msFromTime t))) in
      mkDate (TimeClip (UTC <$> date))
  end.

End LocalTimeZone.

End ES.

(** ** The component *)

Module AppointmentForm.

Import ES.

(** [interface Doctor]. *)
Record Doctor : Type := mkDoctor {
  id : string;
  name : string;
  specialty : string
}.

(** The object [{doctorId, date, notes}]: the argument of [onSubmit] and the
    type of [initialValues]. *)
Module Appointment.

Record t : Type := mk {
  doctorId : string;
  date : Date;
  notes : string
}.

End Appointment.

(** [interface AppointmentFormProps].  [onSubmit] is a callback of the
    caller: it is embedded as the list of its calls (see [Outcome]). *)
Module Props.

Record t : Type := mk {
  doctors : list Doctor;
  initialValues : option Appointment.t;
  isLoading : option bool
}.

End Props.

(** The six [useState] slots. *)
Record State : Type := mkState {
  doctorId : string;
  date : Date;
  notes : string;
  showDatePicker : bool;
  showTimePicker : bool;
  errors : gmap string string
}.

(** The state setters.  A handler reads the slots of the snapshot it closes
    over and queues writes; the next render sees the snapshot with the writes
    applied. *)
Definition setDoctorId (v : string) (st : State) : State :=
  mkState v (date st) (notes st) (showDatePicker st) (showTimePicker st) (errors st).

Definition setDate (v : Date) (st : State) : State :=
  mkState (doctorId st) v (notes st) (showDatePicker st) (showTimePicker st) (errors st).

Definition setNotes (v : string) (st : State) : State :=
  mkState (doctorId st) (date st) v (showDatePicker st) (showTimePicker st) (errors st).

Definition setShowDatePicker (v : bool) (st : State) : State :=
  mkState (doctorId st) (date st) (notes st) v (showTimePicker st) (errors st).

Definition setShowTimePicker (v : bool) (st : State) : State :=
  mkState (doctorId st) (date st) (notes st) (showDatePicker st) v (errors st).

Definition setErrors (v : gmap string string) (st : State) : State :=
  mkState (doctorId st) (date st) (notes st) (showDatePicker st) (showTimePicker st) v.

(** What a handler leaves behind: the next state and the arguments of the
    [onSubmit] calls it made, in order. *)
Definition Outcome : Type := State * list Appointment.t.

(** [!s] on a string: only the empty string is falsy. *)
Definition String_not (s : string) : bool :=
  match s with
  | EmptyString => true
  | String _ _ => false
  end.

(** [a || b] on strings. *)
Definition String_or (a b : string) : string :=
  if String_not a then b else a.

(** [Object.keys(o)]; only its length is used, so its order does not matter. *)
Definition Object_keys (o : gmap string string) : list string :=
  (map_to_list o).*1.

(** [new Date()] when the clock reads [now]. *)
Definition Date_now (now : Z) : Date := mkDate (Some now).

Definition doctorId_message : string := "Por favor, selecione um médico".
Definition date_message : string := "A data da consulta deve ser no futuro".


Section Component.

(** The host: its local time zone and [Platform.OS]. *)
Variable LocalTZA : Z -> bool -> Z.
Variable Platform_OS : string.

Variable props : Props.t.

(** [isLoading = false] in the parameter list. *)
Definition isLoading : bool := default false (Props.isLoading props).

(** The state of the first render, when the clock reads [now]. *)
Definition initialState (now : Z) : State :=
  mkState
    (String_or (from_option Appointment.doctorId EmptyString (Props.initialValues props))
               EmptyString)
    (from_option Appointment.date (Date_now now) (Props.initialValues props))
    (String_or (from_option Appointment.notes EmptyString (Props.initialValues props))
               EmptyString)
    false false ∅.

(** The mapping [newErrors] that [validateForm] builds from the snapshot
    when the clock reads [now]. *)
Definition newErrors (now : Z) (st : State) : gmap string string :=
  let newErrors : gmap string string := ∅ in
  let newErrors :=
    if String_not (doctorId st)
    then <["doctorId" := doctorId_message]> newErrors
    else newErrors in
  let newErrors :=
    if Date_lt (date st) (Date_now now)
    then <["date" := date_message]> newErrors
    else newErrors in
  newErrors.

Definition validateForm (now : Z) (st : State) : bool * State :=
  let newErrors := newErrors now st in
  (Nat.eqb (length (Object_keys newErrors)) 0, setErrors newErrors st).

Definition handleSubmit (now : Z) (st : State) : Outcome :=
  let '(valid, st') := validateForm now st in
  if valid
  then (st', [Appointment.mk (doctorId st) (date st) (notes st)])
  else (st', []).

Definition onDateChange (selectedDate : option Date) (st : State) : State :=
  let st' := setShowDatePicker (String.eqb Platform_OS "ios") st in
  match selectedDate with
  | Some selectedDate =>
      let newDate := Date_copy (date st) in
      let newDate := ES.setFullYear LocalTZA newDate (getFullYear LocalTZA selectedDate) in
      let newDate := ES.setMonth LocalTZA newDate (getMonth LocalTZA selectedDate) in
      let newDate := ES.setDate LocalTZA newDate (getDate LocalTZA selectedDate) in
      setDate newDate st'
  | None => st'
  end.

Definition onTimeChange (selectedTime : option Date) (st : State) : State :=
  let st' := setShowTimePicker (String.eqb Platform_OS "ios") st in
  match selectedTime with
  | Some selectedTime =>
      let newDate := Date_copy (date st) in
      let newDate := ES.setHours LocalTZA newDate (getHours LocalTZA selectedTime) in
      let newDate := ES.setMinutes LocalTZA newDate (getMinutes LocalTZA selectedTime) in
      setDate newDate st'
  | None => st'
  end.

(** Modelled from the spec: the handling of a press by the [Button] of
    [@rneui/themed], which the form renders with [loading] and [disabled] set
    to [isLoading] and whose code is not part of the sources.  The spec asks
    that while the loading flag is true the submit action is disabled, a
    no-op: a press runs [onPress] unless the button is [loading] or
    [disabled]. *)
Definition Button_press (loading disabled : bool) (onPress : State -> Outcome)
    (st : State) : Outcome :=
  if negb loading && negb disabled then onPress st else (st, []).

(** What the user and the two pickers can do to the rendered form. *)
Inductive Event : Type :=
  | SelectDoctor (itemValue : string)
  | ChangeNotes (text : string)
  | PressDateButton
  | PressTimeButton
  | DatePickerChange (selectedDate : option Date)
  | TimePickerChange (selectedTime : option Date)
  | PressSubmit.

(** One event, delivered when the clock reads [now].  A picker is only
    rendered, and so only reports a change, while its flag is set. *)
Definition dispatch (now : Z) (ev : Event) (st : State) : Outcome :=
  match ev with
  | SelectDoctor itemValue => (setDoctorId itemValue st, [])
  | ChangeNotes text => (setNotes text st, [])
  | PressDateButton => (setShowDatePicker true st, [])
  | PressTimeButton => (setShowTimePicker true st, [])
  | DatePickerChange selectedDate =>
      if showDatePicker st then (onDateChange selectedDate st, []) else (st, [])
  | TimePickerChange selectedTime =>
      if showTimePicker st then (onTimeChange selectedTime st, []) else (st, [])
  | PressSubmit => Button_press isLoading isLoading (handleSubmit now) st
  end.

(** A session: events with the clock reading at each, in order. *)
Fixpoint run (evs : list (Z * Event)) (st : State) : Outcome :=
  match evs with
  | [] => (st, [])
  | (now, ev) :: evs =>
      let '(st1, calls1) := dispatch now ev st in
      let '(st2, calls2) := run evs st1 in
      (st2, calls1 ++ calls2)
  end.


End Component.

(** Whether an event is a press of the submit button. *)
Definition isPressSubmit (ev : Event) : bool :=
  match ev with
  | PressSubmit => true
  | _ => false
  end.

(** Whether an event carries a new value for a slot of the draft: a doctor,
    a text for the notes, or a date or time picked in a picker. *)
Definition editsDraft (ev : Event) : bool :=
  match ev with
  | SelectDoctor _ | ChangeNotes _ => true
  | DatePickerChange (Some _) | TimePickerChange (Some _) => true
  | _ => false
  end.

(** Whether an event is a picker change that carries a date or a time. *)
Definition picksDateTime (ev : Event) : bool :=
  match ev with
  | DatePickerChange (Some _) | TimePickerChange (Some _) => true
  | _ => false
  end.

(** The number of presses of the submit button in a session. *)
Definition submitPresses (evs : list (Z * Event)) : nat :=
  length (filter (λ e, isPressSubmit e.2 = true) evs).

(** The draft held by a state, as [handleSubmit] would forward it. *)
Definition draftOf (st : State) : Appointment.t :=
  Appointment.mk (doctorId st) (date st) (notes st).

End AppointmentForm.

(** ** Sample data *)

Module Samples.

Import ES AppointmentForm.

(** Brasília time: three hours behind UTC, the whole year. *)
Definition Brasilia : Z → bool → Z := λ _ _, -10800000.

(** The doctors of the example scenario of the specification. *)
Definition doctors : list Doctor := [mkDoctor "d1" "Ana" "Cardio"].

Definition props : Props.t := Props.mk doctors None None.

Definition props_loading : Props.t := Props.mk doctors None (Some true).

(** 2025-12-31T12:00:00Z and 2026-01-01T12:00:00Z. *)
Definition dec31_noon : Z := 1767182400000.
Definition jan01_noon : Z := 1767268800000.

(** 2025-01-31T10:00:00-03:00, 2025-01-31T14:30:00-03:00 and
    2025-02-15T00:00:00-03:00. *)
Definition jan31_10h : Z := 1738328400000.
Definition jan31_14h30 : Z := 1738344600000.
Definition feb15_00h : Z := 1739588400000.




(** A draft for 2026-01-01T12:00:00Z with doctor [doctorId]. *)
Definition draft (doctorId : string) : State :=
  mkState doctorId (mkDate (Some jan01_noon)) "" false false ∅.

(** A draft for 2025-01-31T10:00:00-03:00, both pickers open. *)
Definition draft_jan31 : State :=
  mkState "d1" (mkDate (Some jan31_10h)) "" true true ∅.

End Samples.

(** * Time values and their fields *)

Module DateProofs.

Import ES.

Lemma HourFromTime_range (t : Z) : 0 <= HourFromTime t < 24.
Proof. unfold HourFromTime, HoursPerDay. apply Z.mod_pos_bound. lia. Qed.

Lemma MinFromTime_range (t : Z) : 0 <= MinFromTime t < 60.
Proof. unfold MinFromTime, MinutesPerHour. apply Z.mod_pos_bound. lia. Qed.

Lemma SecFromTime_range (t : Z) : 0 <= SecFromTime t < 60.
Proof. unfold SecFromTime, SecondsPerMinute. apply Z.mod_pos_bound. lia. Qed.

Lemma msFromTime_range (t : Z) : 0 <= msFromTime t < 1000.
Proof. unfold msFromTime, msPerSecond. apply Z.mod_pos_bound. lia. Qed.

Lemma TimeWithinDay_range (t : Z) : 0 <= TimeWithinDay t < msPerDay.
Proof. unfold TimeWithinDay, msPerDay. apply Z.mod_pos_bound. lia. Qed.

(** A time value is its day and its time within the day. *)
Lemma Day_TimeWithinDay (t : Z) : t = Day t * msPerDay + TimeWithinDay t.
Proof.
  unfold Day, TimeWithinDay, msPerDay.
  pose proof (Z.div_mod t 86400000). lia.
Qed.

(** The fields of a time value put together from a day and a time of day. *)
Section Fields.

Variables day h m s milli : Z.
Hypothesis Hh : 0 <= h < 24.
Hypothesis Hm : 0 <= m < 60.
Hypothesis Hs : 0 <= s < 60.
Hypothesis Hmilli : 0 <= milli < 1000.

Local Abbreviation t :=
  (day * msPerDay + (h * msPerHour + m * msPerMinute + s * msPerSecond + milli)).

Lemma Day_fields : Day t = day.
Proof.
  unfold Day, msPerDay, msPerHour, msPerMinute, msPerSecond.
  symmetry. apply (Z.div_unique_pos _ _ _ (h * 3600000 + m * 60000 + s * 1000 + milli)); lia.
Qed.

Lemma HourFromTime_fields : HourFromTime t = h.
Proof.
  unfold HourFromTime, HoursPerDay, msPerDay, msPerHour, msPerMinute, msPerSecond.
  replace (_ / 3600000) with (day * 24 + h).
  - symmetry. apply (Z.mod_unique_pos _ _ day); lia.
  - apply (Z.div_unique_pos _ _ _ (m * 60000 + s * 1000 + milli)); lia.
Qed.

Lemma MinFromTime_fields : MinFromTime t = m.
Proof.
  unfold MinFromTime, MinutesPerHour, msPerDay, msPerHour, msPerMinute, msPerSecond.
  replace (_ / 60000) with ((day * 24 + h) * 60 + m).
  - symmetry. apply (Z.mod_unique_pos _ _ (day * 24 + h)); lia.
  - apply (Z.div_unique_pos _ _ _ (s * 1000 + milli)); lia.
Qed.

Lemma SecFromTime_fields : SecFromTime t = s.
Proof.
  unfold SecFromTime, SecondsPerMinute, msPerDay, msPerHour, msPerMinute, msPerSecond.
  replace (_ / 1000) with (((day * 24 + h) * 60 + m) * 60 + s).
  - symmetry. apply (Z.mod_unique_pos _ _ ((day * 24 + h) * 60 + m)); lia.
  - apply (Z.div_unique_pos _ _ _ milli); lia.
Qed.

Lemma msFromTime_fields : msFromTime t = milli.
Proof.
  unfold msFromTime, msPerDay, msPerHour, msPerMinute, msPerSecond.
  symmetry. apply (Z.mod_unique_pos _ _ ((((day * 24 + h) * 60 + m) * 60 + s))); lia.
Qed.

End Fields.

(** The year, the month and the date number of a time value depend on its
    day only. *)
Lemma YearFromTime_Day (t t' : Z) :
  Day t = Day t' → YearFromTime t = YearFromTime t'.
Proof. unfold YearFromTime. by intros ->. Qed.

Lemma MonthFromTime_Day (t t' : Z) :
  Day t = Day t' → MonthFromTime t = MonthFromTime t'.
Proof.
  intros Hd. unfold MonthFromTime, DayWithinYear, InLeapYear.
  by rewrite (YearFromTime_Day _ _ Hd), Hd.
Qed.

Lemma DateFromTime_Day (t t' : Z) :
  Day t = Day t' → DateFromTime t = DateFromTime t'.
Proof.
  intros Hd. unfold DateFromTime, DayWithinYear, InLeapYear.
  by rewrite (MonthFromTime_Day _ _ Hd), (YearFromTime_Day _ _ Hd), Hd.
Qed.

Lemma TimeClip_in_range (t : Z) : Z.abs t <= maxTime → TimeClip (Some t) = Some t.
Proof.
  intros Ht. unfold TimeClip; simpl.
  destruct (maxTime <? Z.abs t) eqn:E; [|done].
  apply Z.ltb_lt in E. lia.
Qed.

(** ** Years, months and date numbers *)

Lemma DayFromYear_mean (y : Z) :
  146097 * (y - 1970) - 506 <= 400 * DayFromYear y <= 146097 * (y - 1970) + 589.
Proof. unfold DayFromYear. Z.to_euclidean_division_equations. lia. Qed.

Lemma DayFromYear_succ (y : Z) : DayFromYear (y + 1) = DayFromYear y + DaysInYear y.
Proof.
  unfold DayFromYear, DaysInYear, isLeapYear.
  repeat case_match; Z.to_euclidean_division_equations; lia.
Qed.

Lemma DayFromYear_lt (y1 y2 : Z) : y1 < y2 → DayFromYear y1 < DayFromYear y2.
Proof.
  intros Hy.
  pose proof (DayFromYear_mean y1). pose proof (DayFromYear_mean y2). lia.
Qed.

Lemma DayFromYear_le (y1 y2 : Z) : y1 <= y2 → DayFromYear y1 <= DayFromYear y2.
Proof.
  intros Hy. destruct (decide (y1 = y2)) as [->|Hne]; [lia|].
  pose proof (DayFromYear_lt y1 y2). lia.
Qed.

Lemma YearFromDay_spec (d : Z) :
  DayFromYear (YearFromDay d) <= d < DayFromYear (YearFromDay d + 1).
Proof.
  unfold YearFromDay.
  set (y := 1970 + 400 * d / 146097).
  assert (146097 * (y - 1970) <= 400 * d < 146097 * (y - 1970) + 146097) as Hy.
  { subst y. Z.to_euclidean_division_equations. lia. }
  pose proof (DayFromYear_mean (y - 1)).
  pose proof (DayFromYear_mean (y + 1 + 1)).
  repeat case_match; rewrite ?Z.ltb_lt, ?Z.ltb_ge, ?Z.leb_le, ?Z.leb_gt in *.
  - replace (y - 1 + 1) with y by lia. lia.
  - lia.
  - lia.
Qed.

Lemma YearFromDay_unique (d y : Z) :
  DayFromYear y <= d < DayFromYear (y + 1) → YearFromDay d = y.
Proof.
  intros Hy. pose proof (YearFromDay_spec d) as Hs.
  destruct (Z.lt_trichotomy (YearFromDay d) y) as [Hlt|[Heq|Hgt]]; [|done|].
  - pose proof (DayFromYear_le (YearFromDay d + 1) y). lia.
  - pose proof (DayFromYear_le (y + 1) (YearFromDay d)). lia.
Qed.

(** [YearFromTime t] is the largest [y] with [TimeFromYear y <= t]. *)
Lemma YearFromTime_largest (t : Z) :
  TimeFromYear (YearFromTime t) <= t ∧
  ∀ y, TimeFromYear y <= t → y <= YearFromTime t.
Proof.
  pose proof (YearFromDay_spec (Day t)) as [Hlo Hhi].
  fold (YearFromTime t) in Hlo, Hhi.
  pose proof (Day_TimeWithinDay t) as Ht.
  pose proof (TimeWithinDay_range t) as Hw.
  unfold TimeFromYear. split.
  - unfold msPerDay in *. lia.
  - intros y Hy.
    destruct (Z_le_gt_dec y (YearFromTime t)) as [Hle|Hgt]; [done|].
    pose proof (DayFromYear_le (YearFromTime t + 1) y).
    unfold msPerDay in *. lia.
Qed.

Lemma DayWithinYear_range (t : Z) :
  0 <= DayWithinYear t < DaysInYear (YearFromTime t).
Proof.
  unfold DayWithinYear, YearFromTime.
  pose proof (YearFromDay_spec (Day t)) as Hs.
  rewrite DayFromYear_succ in Hs. lia.
Qed.

Lemma MonthFromTime_range (t : Z) : 0 <= MonthFromTime t <= 11.
Proof. unfold MonthFromTime. repeat case_match; lia. Qed.

Lemma InLeapYear_DaysInYear (t : Z) :
  DaysInYear (YearFromTime t) = 365 + InLeapYear t.
Proof. unfold DaysInYear, InLeapYear. by case_match. Qed.

Ltac month_cases m H :=
  let E := fresh "E" in
  assert (m = 0 ∨ m = 1 ∨ m = 2 ∨ m = 3 ∨ m = 4 ∨ m = 5 ∨ m = 6 ∨ m = 7 ∨
          m = 8 ∨ m = 9 ∨ m = 10 ∨ m = 11) as E by lia;
  clear H;
  destruct E as [E|[E|[E|[E|[E|[E|[E|[E|[E|[E|[E|E]]]]]]]]]]]; rewrite !E in *.

(** A day within the year is the days before its month and its date number. *)
Lemma DayWithinYear_fields (t : Z) :
  DayWithinYear t =
  DayFromMonth (MonthFromTime t) (InLeapYear t) + DateFromTime t - 1.
Proof.
  unfold DateFromTime.
  pose proof (MonthFromTime_range t) as Hm.
  month_cases (MonthFromTime t) Hm; simpl; lia.
Qed.

Lemma DateFromTime_range (t : Z) :
  1 <= DateFromTime t <= DaysInMonth (YearFromTime t) (MonthFromTime t).
Proof.
  pose proof (DayWithinYear_range t) as Hd.
  rewrite InLeapYear_DaysInYear in Hd.
  unfold DateFromTime, DaysInMonth.
  assert (InLeapYear t = if isLeapYear (YearFromTime t) then 1 else 0) as Hl
    by reflexivity.
  unfold MonthFromTime in *.
  destruct (isLeapYear (YearFromTime t));
    repeat case_match; rewrite ?Z.ltb_lt, ?Z.ltb_ge in *; try lia.
Qed.

Lemma DayFromMonth_fits (y mn dt : Z) :
  0 <= mn <= 11 →
  1 <= dt <= DaysInMonth y mn →
  0 <= DayFromMonth mn (if isLeapYear y then 1 else 0) + dt - 1 < DaysInYear y.
Proof.
  intros Hm Hdt. unfold DaysInYear.
  month_cases mn Hm; simpl in *; destruct (isLeapYear y); lia.
Qed.

(** The year, month and date number of a day assembled as [MakeDay] does. *)
Lemma fields_of_day (y mn dt t : Z) :
  0 <= mn <= 11 →
  1 <= dt <= DaysInMonth y mn →
  Day t = DayFromYear y + DayFromMonth mn (if isLeapYear y then 1 else 0) + dt - 1 →
  YearFromTime t = y ∧ MonthFromTime t = mn ∧ DateFromTime t = dt.
Proof.
  intros Hm Hdt Hday.
  pose proof (DayFromMonth_fits y mn dt Hm Hdt) as Hfit.
  assert (YearFromTime t = y) as Hy.
  { unfold YearFromTime. apply YearFromDay_unique.
    rewrite DayFromYear_succ. lia. }
  assert (MonthFromTime t = mn) as Hmn.
  { unfold MonthFromTime, DayWithinYear, InLeapYear. rewrite Hy, Hday.
    clear Hfit Hday Hy.
    month_cases mn Hm; simpl in *; destruct (isLeapYear y);
      repeat case_match; rewrite ?Z.ltb_lt, ?Z.ltb_ge in *; lia. }
  split; [done|]. split; [done|].
  pose proof (DayWithinYear_fields t) as Hf.
  unfold DayWithinYear, InLeapYear in Hf. rewrite Hmn, Hy, Hday in Hf.
  lia.
Qed.

Lemma MakeDay_Some (y mn dt : Z) :
  0 <= mn <= 11 →
  MakeDay (Some y) (Some mn) (Some dt) =
  Some (DayFromYear y + DayFromMonth mn (if isLeapYear y then 1 else 0) + dt - 1).
Proof.
  intros Hm. unfold MakeDay; simpl.
  rewrite (Z.div_small mn 12), (Z.mod_small mn 12) by lia.
  by rewrite Z.add_0_r.
Qed.

(** [MakeDay] does find the day the standard asks for: the first of month
    [mn] of year [y] has year [y], month [mn] and date number 1. *)
Lemma MakeDay_finds (y mn dt day : Z) :
  0 <= mn <= 11 →
  MakeDay (Some y) (Some mn) (Some dt) = Some day →
  ∃ t, YearFromTime t = y ∧ MonthFromTime t = mn ∧ DateFromTime t = 1 ∧
       day = Day t + dt - 1.
Proof.
  intros Hm. rewrite (MakeDay_Some _ _ _ Hm). intros [= <-].
  set (d1 := DayFromYear y + DayFromMonth mn (if isLeapYear y then 1 else 0)).
  exists (d1 * msPerDay).
  assert (Day (d1 * msPerDay) = d1) as Hd.
  { unfold Day, msPerDay. apply Z.div_mul. lia. }
  destruct (fields_of_day y mn 1 (d1 * msPerDay) Hm) as (Hy & Hmn & Hdt).
  - unfold DaysInMonth. repeat case_match; lia.
  - rewrite Hd. subst d1. lia.
  - rewrite Hd. repeat split; try done.
Qed.

Lemma fields_within_day (t t' : Z) :
  TimeWithinDay t = TimeWithinDay t' →
  HourFromTime t = HourFromTime t' ∧ MinFromTime t = MinFromTime t' ∧
  SecFromTime t = SecFromTime t' ∧ msFromTime t = msFromTime t'.
Proof.
  unfold TimeWithinDay, HourFromTime, MinFromTime, SecFromTime, msFromTime,
    HoursPerDay, MinutesPerHour, SecondsPerMinute, msPerDay, msPerHour,
    msPerMinute, msPerSecond.
  intros H. repeat split; Z.to_euclidean_division_equations; lia.
Qed.

Lemma Day_assembled (day tw : Z) :
  0 <= tw < msPerDay →
  Day (day * msPerDay + tw) = day ∧ TimeWithinDay (day * msPerDay + tw) = tw.
Proof.
  intros Htw. unfold Day, TimeWithinDay, msPerDay in *. split.
  - symmetry. apply (Z.div_unique_pos _ _ _ tw); lia.
  - symmetry. apply (Z.mod_unique_pos _ _ day); lia.
Qed.

(** ** The setters on a valid date and a finite argument *)

Section Setters.

Variable LocalTZA : Z → bool → Z.

Lemma setHours_Some (t h : Z) :
  setHours LocalTZA (mkDate (Some t)) (Some h) =
  let lt := LocalTime LocalTZA t in
  mkDate (TimeClip (Some (UTC LocalTZA
    (Day lt * msPerDay +
     (h * msPerHour + MinFromTime lt * msPerMinute +
      SecFromTime lt * msPerSecond + msFromTime lt))))).
Proof. reflexivity. Qed.

Lemma setMinutes_Some (t m : Z) :
  setMinutes LocalTZA (mkDate (Some t)) (Some m) =
  let lt := LocalTime LocalTZA t in
  mkDate (TimeClip (Some (UTC LocalTZA
    (Day lt * msPerDay +
     (HourFromTime lt * msPerHour + m * msPerMinute +
      SecFromTime lt * msPerSecond + msFromTime lt))))).
Proof. reflexivity. Qed.

Lemma setFullYear_Some (t y : Z) :
  setFullYear LocalTZA (mkDate (Some t)) (Some y) =
  let lt := LocalTime LocalTZA t in
  mkDate (TimeClip (UTC LocalTZA <$>
    MakeDate (MakeDay (Some y) (Some (MonthFromTime lt)) (Some (DateFromTime lt)))
             (Some (TimeWithinDay lt)))).
Proof. reflexivity. Qed.

Lemma setMonth_Some (t m : Z) :
  setMonth LocalTZA (mkDate (Some t)) (Some m) =
  let lt := LocalTime LocalTZA t in
  mkDate (TimeClip (UTC LocalTZA <$>
    MakeDate (MakeDay (Some (YearFromTime lt)) (Some m) (Some (DateFromTime lt)))
             (Some (TimeWithinDay lt)))).
Proof. reflexivity. Qed.

Lemma setDate_Some (t dt : Z) :
  setDate LocalTZA (mkDate (Some t)) (Some dt) =
  let lt := LocalTime LocalTZA t in
  mkDate (TimeClip (UTC LocalTZA <$>
    MakeDate (MakeDay (Some (YearFromTime lt)) (Some (MonthFromTime lt)) (Some dt))
             (Some (TimeWithinDay lt)))).
Proof. reflexivity. Qed.

End Setters.

(** ** Setting the hour and the minute in a zone with a fixed offset *)

Section FixedOffset.

Variable LocalTZA : Z → bool → Z.
Variable off : Z.
Hypothesis fixed : ∀ t isUTC, LocalTZA t isUTC = off.

Lemma LocalTime_fixed (t : Z) : LocalTime LocalTZA t = t + off.
Proof. unfold LocalTime. by rewrite fixed. Qed.

Lemma UTC_fixed (t : Z) : UTC LocalTZA t = t - off.
Proof. unfold UTC. by rewrite fixed. Qed.

(** Two time values on one local day are less than a day apart, so a setter
    that stays on the local day of a time value a day away from both ends of
    the range stays in the range. *)
Lemma same_day_in_range (t0 t : Z) :
  Z.abs t0 <= maxTime - msPerDay →
  Day (t + off) = Day (t0 + off) →
  Z.abs t <= maxTime.
Proof.
  intros Hr Hd.
  pose proof (Day_TimeWithinDay (t + off)) as H1.
  pose proof (Day_TimeWithinDay (t0 + off)) as H2.
  pose proof (TimeWithinDay_range (t + off)) as H3.
  pose proof (TimeWithinDay_range (t0 + off)) as H4.
  rewrite Hd in H1. unfold maxTime, msPerDay in *. lia.
Qed.

Lemma setHours_fixed (t0 t h : Z) :
  Z.abs t0 <= maxTime - msPerDay →
  Day (t + off) = Day (t0 + off) →
  0 <= h < 24 →
  ∃ t', DateValue (setHours LocalTZA (mkDate (Some t)) (Some h)) = Some t' ∧
        Day (t' + off) = Day (t0 + off) ∧
        HourFromTime (t' + off) = h ∧
        MinFromTime (t' + off) = MinFromTime (t + off) ∧
        SecFromTime (t' + off) = SecFromTime (t + off) ∧
        msFromTime (t' + off) = msFromTime (t + off).
Proof.
  intros Hr Hd Hh.
  pose proof (MinFromTime_range (t + off)) as Hm.
  pose proof (SecFromTime_range (t + off)) as Hs.
  pose proof (msFromTime_range (t + off)) as Hms.
  set (local := Day (t + off) * msPerDay +
                (h * msPerHour + MinFromTime (t + off) * msPerMinute +
                 SecFromTime (t + off) * msPerSecond + msFromTime (t + off))).
  assert (Day local = Day (t0 + off)) as Hday
    by (subst local; rewrite Day_fields; done).
  exists (local - off).
  replace (local - off + off) with local by lia.
  split.
  - rewrite setHours_Some. cbv zeta. rewrite LocalTime_fixed, UTC_fixed. fold local.
    rewrite TimeClip_in_range; [done|].
    apply (same_day_in_range t0); [done|].
    by replace (local - off + off) with local by lia.
  - split; [done|]. subst local.
    by rewrite HourFromTime_fields, MinFromTime_fields, SecFromTime_fields,
       msFromTime_fields.
Qed.

Lemma setMinutes_fixed (t0 t m : Z) :
  Z.abs t0 <= maxTime - msPerDay →
  Day (t + off) = Day (t0 + off) →
  0 <= m < 60 →
  ∃ t', DateValue (setMinutes LocalTZA (mkDate (Some t)) (Some m)) = Some t' ∧
        Day (t' + off) = Day (t0 + off) ∧
        HourFromTime (t' + off) = HourFromTime (t + off) ∧
        MinFromTime (t' + off) = m ∧
        SecFromTime (t' + off) = SecFromTime (t + off) ∧
        msFromTime (t' + off) = msFromTime (t + off).
Proof.
  intros Hr Hd Hm.
  pose proof (HourFromTime_range (t + off)) as Hh.
  pose proof (SecFromTime_range (t + off)) as Hs.
  pose proof (msFromTime_range (t + off)) as Hms.
  set (local := Day (t + off) * msPerDay +
                (HourFromTime (t + off) * msPerHour + m * msPerMinute +
                 SecFromTime (t + off) * msPerSecond + msFromTime (t + off))).
  assert (Day local = Day (t0 + off)) as Hday
    by (subst local; rewrite Day_fields; done).
  exists (local - off).
  replace (local - off + off) with local by lia.
  split.
  - rewrite setMinutes_Some. cbv zeta. rewrite LocalTime_fixed, UTC_fixed. fold local.
    rewrite TimeClip_in_range; [done|].
    apply (same_day_in_range t0); [done|].
    by replace (local - off + off) with local by lia.
  - split; [done|]. subst local.
    by rewrite HourFromTime_fields, MinFromTime_fields, SecFromTime_fields,
       msFromTime_fields.
Qed.

(** A setter that keeps the time within the day of the local time. *)
Lemma assembled_keeps_time (day : Number) (tw t' : Z) :
  0 <= tw < msPerDay →
  TimeClip (UTC LocalTZA <$> MakeDate day (Some tw)) = Some t' →
  TimeWithinDay (t' + off) = tw.
Proof.
  intros Htw. destruct day as [day|]; [|done].
  change (MakeDate (Some day) (Some tw)) with (Some (day * msPerDay + tw)).
  change (UTC LocalTZA <$> Some (day * msPerDay + tw))
    with (Some (UTC LocalTZA (day * msPerDay + tw))).
  rewrite UTC_fixed. unfold TimeClip; simpl.
  destruct (maxTime <? _); [done|]. intros [= <-].
  replace (day * msPerDay + tw - off + off) with (day * msPerDay + tw) by lia.
  by apply Day_assembled.
Qed.

Lemma setFullYear_keeps_time (t t' : Z) (year : Number) :
  DateValue (setFullYear LocalTZA (mkDate (Some t)) year) = Some t' →
  TimeWithinDay (t' + off) = TimeWithinDay (t + off).
Proof.
  unfold setFullYear; simpl. rewrite LocalTime_fixed.
  apply assembled_keeps_time, TimeWithinDay_range.
Qed.

Lemma setMonth_keeps_time (t t' : Z) (month : Number) :
  DateValue (setMonth LocalTZA (mkDate (Some t)) month) = Some t' →
  TimeWithinDay (t' + off) = TimeWithinDay (t + off).
Proof.
  unfold setMonth; simpl. rewrite LocalTime_fixed.
  apply assembled_keeps_time, TimeWithinDay_range.
Qed.

Lemma setDate_keeps_time (t t' : Z) (date : Number) :
  DateValue (setDate LocalTZA (mkDate (Some t)) date) = Some t' →
  TimeWithinDay (t' + off) = TimeWithinDay (t + off).
Proof.
  unfold setDate; simpl. rewrite LocalTime_fixed.
  apply assembled_keeps_time, TimeWithinDay_range.
Qed.

End FixedOffset.

(** ** Setting the year, the month and the date number in a zone with a
    fixed offset *)

(** The years that lie in the range of time values with a day to spare at
    both ends. *)
Lemma year_in_range (y t : Z) :
  -271820 <= y <= 275759 →
  YearFromTime t = y →
  Z.abs t <= maxTime - msPerDay.
Proof.
  intros Hy Ht.
  pose proof (YearFromDay_spec (Day t)) as Hs.
  fold (YearFromTime t) in Hs. rewrite Ht in Hs.
  pose proof (DayFromYear_le (-271820) y) as Hlo.
  pose proof (DayFromYear_le (y + 1) 275760) as Hhi.
  change (DayFromYear (-271820)) with (-99999744) in Hlo.
  change (DayFromYear 275760) with 99999744 in Hhi.
  pose proof (Day_TimeWithinDay t) as Hdt.
  pose proof (TimeWithinDay_range t) as Htw.
  unfold maxTime, msPerDay in *. lia.
Qed.

Section FixedOffsetDate.

Variable LocalTZA : Z → bool → Z.
Variable off : Z.
Hypothesis fixed : ∀ t isUTC, LocalTZA t isUTC = off.
Hypothesis off_small : Z.abs off <= msPerDay.

(** The local time assembled by a setter, and the time value stored for it. *)
Lemma assembled_fixed (y mn dt tw : Z) :
  -271820 <= y <= 275759 →
  0 <= mn <= 11 →
  1 <= dt <= DaysInMonth y mn →
  0 <= tw < msPerDay →
  ∃ t', TimeClip (UTC LocalTZA <$>
          MakeDate (MakeDay (Some y) (Some mn) (Some dt)) (Some tw)) = Some t' ∧
        YearFromTime (t' + off) = y ∧
        MonthFromTime (t' + off) = mn ∧
        DateFromTime (t' + off) = dt ∧
        TimeWithinDay (t' + off) = tw.
Proof.
  intros Hy Hmn Hdt Htw.
  rewrite (MakeDay_Some _ _ _ Hmn).
  set (day := DayFromYear y + DayFromMonth mn (if isLeapYear y then 1 else 0) + dt - 1).
  change (MakeDate (Some day) (Some tw)) with (Some (day * msPerDay + tw)).
  change (UTC LocalTZA <$> Some (day * msPerDay + tw))
    with (Some (UTC LocalTZA (day * msPerDay + tw))).
  rewrite (UTC_fixed _ _ fixed).
  destruct (Day_assembled day tw Htw) as [Hday Hwithin].
  destruct (fields_of_day y mn dt (day * msPerDay + tw) Hmn Hdt Hday)
    as (HY & HM & HD).
  exists (day * msPerDay + tw - off).
  replace (day * msPerDay + tw - off + off) with (day * msPerDay + tw) by lia.
  split; [|done].
  apply TimeClip_in_range.
  pose proof (year_in_range y _ Hy HY). lia.
Qed.

Lemma setFullYear_fixed (t y : Z) :
  -271820 <= y <= 275759 →
  DateFromTime (t + off) <= DaysInMonth y (MonthFromTime (t + off)) →
  ∃ t', DateValue (setFullYear LocalTZA (mkDate (Some t)) (Some y)) = Some t' ∧
        YearFromTime (t' + off) = y ∧
        MonthFromTime (t' + off) = MonthFromTime (t + off) ∧
        DateFromTime (t' + off) = DateFromTime (t + off) ∧
        TimeWithinDay (t' + off) = TimeWithinDay (t + off).
Proof.
  intros Hy Hfit.
  rewrite setFullYear_Some. cbv zeta. rewrite (LocalTime_fixed _ _ fixed).
  apply assembled_fixed; [done | apply MonthFromTime_range | |
                          apply TimeWithinDay_range].
  pose proof (DateFromTime_range (t + off)). lia.
Qed.

Lemma setMonth_fixed (t m : Z) :
  -271820 <= YearFromTime (t + off) <= 275759 →
  0 <= m <= 11 →
  DateFromTime (t + off) <= DaysInMonth (YearFromTime (t + off)) m →
  ∃ t', DateValue (setMonth LocalTZA (mkDate (Some t)) (Some m)) = Some t' ∧
        YearFromTime (t' + off) = YearFromTime (t + off) ∧
        MonthFromTime (t' + off) = m ∧
        DateFromTime (t' + off) = DateFromTime (t + off) ∧
        TimeWithinDay (t' + off) = TimeWithinDay (t + off).
Proof.
  intros Hy Hm Hfit.
  rewrite setMonth_Some. cbv zeta. rewrite (LocalTime_fixed _ _ fixed).
  apply assembled_fixed; [done | done | | apply TimeWithinDay_range].
  pose proof (DateFromTime_range (t + off)). lia.
Qed.

Lemma setDate_fixed (t dt : Z) :
  -271820 <= YearFromTime (t + off) <= 275759 →
  1 <= dt <= DaysInMonth (YearFromTime (t + off)) (MonthFromTime (t + off)) →
  ∃ t', DateValue (setDate LocalTZA (mkDate (Some t)) (Some dt)) = Some t' ∧
        YearFromTime (t' + off) = YearFromTime (t + off) ∧
        MonthFromTime (t' + off) = MonthFromTime (t + off) ∧
        DateFromTime (t' + off) = dt ∧
        TimeWithinDay (t' + off) = TimeWithinDay (t + off).
Proof.
  intros Hy Hfit.
  rewrite setDate_Some. cbv zeta. rewrite (LocalTime_fixed _ _ fixed).
  apply assembled_fixed; [done | apply MonthFromTime_range | done |
                          apply TimeWithinDay_range].
Qed.

End FixedOffsetDate.

End DateProofs.

(** * Validation and submission *)

Module ValidationProofs.

Import ES AppointmentForm Samples.

Lemma String_not_true (s : string) : String_not s = true ↔ s = EmptyString.
Proof. destruct s; simpl; split; congruence. Qed.

Lemma String_not_false (s : string) : String_not s = false ↔ s ≠ EmptyString.
Proof. destruct s; simpl; split; congruence. Qed.

Lemma Object_keys_length (o : gmap string string) :
  length (Object_keys o) = size o.
Proof. unfold Object_keys. by rewrite length_fmap, length_map_to_list. Qed.

Lemma Date_lt_now (d : Date) (now : Z) :
  Date_lt d (Date_now now) = true ↔ ∃ t, DateValue d = Some t ∧ t < now.
Proof.
  unfold Date_lt, Number_lt, valueOf, Date_now; simpl.
  destruct (DateValue d) as [t|].
  - rewrite Z.ltb_lt. split.
    + intros Hlt. by exists t.
    + intros (t' & [= <-] & Hlt). exact Hlt.
  - split; [done|]. intros (t' & [=] & _).
Qed.

(** The entries of [newErrors], key by key. *)
Lemma newErrors_doctorId (now : Z) (st : State) :
  newErrors now st !! "doctorId" =
  if String_not (doctorId st) then Some doctorId_message else None.
Proof.
  unfold newErrors.
  destruct (String_not (doctorId st)), (Date_lt (date st) (Date_now now));
    by simplify_map_eq.
Qed.

Lemma newErrors_date (now : Z) (st : State) :
  newErrors now st !! "date" =
  if Date_lt (date st) (Date_now now) then Some date_message else None.
Proof.
  unfold newErrors.
  destruct (String_not (doctorId st)), (Date_lt (date st) (Date_now now));
    by simplify_map_eq.
Qed.

Lemma newErrors_other (now : Z) (st : State) (k : string) :
  k ≠ "doctorId" → k ≠ "date" → newErrors now st !! k = None.
Proof.
  intros Hk1 Hk2. unfold newErrors.
  destruct (String_not (doctorId st)), (Date_lt (date st) (Date_now now));
    by simplify_map_eq.
Qed.

Lemma newErrors_empty_iff (now : Z) (st : State) :
  newErrors now st = ∅ ↔
  String_not (doctorId st) = false ∧ Date_lt (date st) (Date_now now) = false.
Proof.
  split.
  - intros He.
    pose proof (newErrors_doctorId now st) as H1.
    pose proof (newErrors_date now st) as H2.
    rewrite He, lookup_empty in H1, H2.
    split; [destruct (String_not _) | destruct (Date_lt _ _)]; congruence.
  - intros [H1 H2]. unfold newErrors. by rewrite H1, H2.
Qed.

(** The stored mapping does not enter the fresh one. *)
Lemma newErrors_setErrors (now : Z) (e : gmap string string) (st : State) :
  newErrors now (setErrors e st) = newErrors now st.
Proof. reflexivity. Qed.

Lemma validateForm_valid_iff (now : Z) (st : State) :
  (validateForm now st).1 = true ↔ newErrors now st = ∅.
Proof.
  unfold validateForm; simpl.
  rewrite Object_keys_length, Nat.eqb_eq. apply map_size_empty_iff.
Qed.

Lemma validateForm_errors (now : Z) (st : State) :
  errors (validateForm now st).2 = newErrors now st.
Proof. reflexivity. Qed.

(** A validation pass leaves the draft and the picker flags alone. *)
Lemma validateForm_frame (now : Z) (st : State) :
  (validateForm now st).2 = setErrors (newErrors now st) st.
Proof. reflexivity. Qed.

Lemma handleSubmit_valid (now : Z) (st : State) :
  newErrors now st = ∅ →
  handleSubmit now st =
  (setErrors ∅ st, [Appointment.mk (doctorId st) (date st) (notes st)]).
Proof.
  intros He. unfold handleSubmit.
  pose proof (proj2 (validateForm_valid_iff now st) He) as Hv.
  pose proof (validateForm_frame now st) as Hf.
  destruct (validateForm now st) as [valid st']; simpl in *.
  subst valid st'. by rewrite He.
Qed.

Lemma handleSubmit_invalid (now : Z) (st : State) :
  newErrors now st ≠ ∅ →
  handleSubmit now st = (setErrors (newErrors now st) st, []).
Proof.
  intros He. unfold handleSubmit.
  pose proof (validateForm_valid_iff now st) as Hv.
  pose proof (validateForm_frame now st) as Hf.
  destruct (validateForm now st) as [valid st']; simpl in *.
  subst st'. destruct valid; [|done].
  exfalso. apply He. by apply Hv.
Qed.

(** [handleSubmit] forwards at most the current draft, and only when the
    fresh mapping is empty. *)
Lemma handleSubmit_calls (now : Z) (st : State) (a : Appointment.t) :
  a ∈ (handleSubmit now st).2 →
  newErrors now st = ∅ ∧ a = Appointment.mk (doctorId st) (date st) (notes st).
Proof.
  destruct (decide (newErrors now st = ∅)) as [He|He].
  - rewrite (handleSubmit_valid _ _ He); simpl.
    rewrite list_elem_of_singleton. naive_solver.
  - rewrite (handleSubmit_invalid _ _ He); simpl.
    by rewrite elem_of_nil.
Qed.

(** The first render: the initial values when the caller gives them, else
    no doctor, the date-time of the clock and no notes; both pickers closed
    and no error shown. *)
Lemma initialState_defaults (ds : list Doctor) (il : option bool) (now : Z) :
  initialState (Props.mk ds None il) now =
  mkState EmptyString (Date_now now) EmptyString false false ∅.
Proof. reflexivity. Qed.

Lemma initialState_initialValues (ds : list Doctor) (il : option bool)
    (iv : Appointment.t) (now : Z) :
  initialState (Props.mk ds (Some iv) il) now =
  mkState (Appointment.doctorId iv) (Appointment.date iv) (Appointment.notes iv)
          false false ∅.
Proof.
  unfold initialState, String_or; simpl.
  by destruct (Appointment.doctorId iv), (Appointment.notes iv).
Qed.

Lemma dispatch_PressSubmit_ready LocalTZA Platform_OS (props : Props.t)
    (now : Z) (st : State) :
  isLoading props = false →
  dispatch LocalTZA Platform_OS props now PressSubmit st = handleSubmit now st.
Proof. intros Hl. simpl. unfold Button_press. by rewrite Hl. Qed.

Lemma dispatch_loading_no_call LocalTZA Platform_OS (props : Props.t)
    (now : Z) (ev : Event) (st : State) :
  isLoading props = true →
  (dispatch LocalTZA Platform_OS props now ev st).2 = [].
Proof.
  intros Hl. destruct ev; simpl; try done.
  - by destruct (showDatePicker st).
  - by destruct (showTimePicker st).
  - unfold Button_press. by rewrite Hl.
Qed.

(** Only [isLoading] of the props reaches [dispatch]. *)
Lemma dispatch_doctors LocalTZA Platform_OS (ds1 ds2 : list Doctor)
    (iv : option Appointment.t) (il : option bool)
    (now : Z) (ev : Event) (st : State) :
  dispatch LocalTZA Platform_OS (Props.mk ds1 iv il) now ev st =
  dispatch LocalTZA Platform_OS (Props.mk ds2 iv il) now ev st.
Proof. by destruct ev. Qed.

(** The [date] entry stands for a valid date-time strictly before the clock
    reading, and for nothing else: an invalid date gets none. *)
Lemma validateForm_date_error_iff (now : Z) (st : State) :
  is_Some (errors (validateForm now st).2 !! "date") ↔
  ∃ t, DateValue (date st) = Some t ∧ t < now.
Proof.
  rewrite validateForm_errors, newErrors_date, <- Date_lt_now.
  destruct (Date_lt (date st) (Date_now now)).
  - split; [done|by eauto].
  - split; [by intros [? [=]]|done].
Qed.

Lemma validateForm_invalid_date (now : Z) (st : State) :
  DateValue (date st) = NaN →
  errors (validateForm now st).2 !! "date" = None.
Proof.
  intros Hd. rewrite validateForm_errors, newErrors_date.
  unfold Date_lt, valueOf. by rewrite Hd.
Qed.

(** What [handleSubmit] forwards has a non-empty [doctorId] and a date-time
    that is not before the clock reading. *)
Lemma handleSubmit_forwarded (now : Z) (st : State) (a : Appointment.t) :
  a ∈ (handleSubmit now st).2 →
  Appointment.doctorId a ≠ EmptyString ∧
  Date_lt (Appointment.date a) (Date_now now) = false.
Proof.
  intros [He ->]%handleSubmit_calls. simpl.
  apply newErrors_empty_iff in He as [H1 H2].
  by rewrite <- String_not_false.
Qed.

(** Over a whole session, every forwarded appointment has a doctor. *)
Lemma run_forwarded_doctorId LocalTZA Platform_OS (props : Props.t)
    (evs : list (Z * Event)) (st : State) (a : Appointment.t) :
  a ∈ (run LocalTZA Platform_OS props evs st).2 →
  Appointment.doctorId a ≠ EmptyString.
Proof.
  revert st. induction evs as [|[now ev] evs IH]; intros st; simpl.
  { by rewrite elem_of_nil. }
  destruct (dispatch LocalTZA Platform_OS props now ev st) as [st1 calls1] eqn:Ed.
  specialize (IH st1).
  destruct (run LocalTZA Platform_OS props evs st1) as [st2 calls2].
  simpl in *. rewrite elem_of_app. intros [Ha|Ha]; [|by apply IH].
  assert (calls1 = [] ∨ calls1 = (handleSubmit now st).2) as [->| ->].
  { destruct ev; simpl in Ed; try (injection Ed as <- <-; by left).
    - destruct (showDatePicker st); injection Ed as <- <-; by left.
    - destruct (showTimePicker st); injection Ed as <- <-; by left.
    - unfold Button_press in Ed.
      destruct (negb (isLoading props) && negb (isLoading props)).
      + right. by rewrite Ed.
      + injection Ed as <- <-. by left. }
  - by apply elem_of_nil in Ha.
  - by apply handleSubmit_forwarded in Ha as [? _].
Qed.

(** The example scenario of the specification: a submit without a doctor
    stores the [doctorId] error and forwards nothing; after the doctor is
    selected, a submit clears the errors and forwards the draft once. *)
Example scenario_submit_select_submit :
  run Brasilia "android" props [(dec31_noon, PressSubmit)] (draft "") =
    (setErrors {[ "doctorId" := doctorId_message ]} (draft ""), []) ∧
  run Brasilia "android" props
      [(dec31_noon, PressSubmit);
       (dec31_noon + 1000, SelectDoctor "d1");
       (dec31_noon + 2000, PressSubmit)] (draft "") =
    (draft "d1", [Appointment.mk "d1" (mkDate (Some jan01_noon)) ""]).
Proof. split; reflexivity. Qed.

(** ** The claims on validation and submission *)

(** C1. The claim asks for a [date] error whenever the draft's date-time is
    at or before the clock reading of the validation pass, so that a
    forwarded appointment is strictly later than it.  The test of the code is
    [date < new Date()]: a draft whose date-time equals the clock reading
    gets no [date] error and, with a doctor selected, is forwarded. *)
Theorem validateForm_date_equal_to_now (now : Z) (st : State) :
  DateValue (date st) = Some now →
  errors (validateForm now st).2 !! "date" = None ∧
  (doctorId st ≠ EmptyString →
   (handleSubmit now st).2 = [Appointment.mk (doctorId st) (date st) (notes st)]).
Proof.
  intros Hd.
  assert (Date_lt (date st) (Date_now now) = false) as Hlt.
  { unfold Date_lt, valueOf, Date_now. rewrite Hd. simpl. apply Z.ltb_irrefl. }
  split.
  - rewrite validateForm_errors, newErrors_date. by rewrite Hlt.
  - intros Hne. rewrite handleSubmit_valid; [done|].
    apply newErrors_empty_iff. by rewrite String_not_false.
Qed.

Lemma validateForm_date_equal_to_now_witness :
  DateValue (date (draft "d1")) = Some jan01_noon ∧
  errors (validateForm jan01_noon (draft "d1")).2 !! "date" = None ∧
  (handleSubmit jan01_noon (draft "d1")).2 =
    [Appointment.mk "d1" (mkDate (Some jan01_noon)) ""].
Proof.
  split; [reflexivity|].
  destruct (validateForm_date_equal_to_now jan01_noon (draft "d1") eq_refl)
    as [H1 H2].
  split; [exact H1|]. apply H2. discriminate.
Defined.

(** C2. A draft with a non-empty [doctorId] and a date-time strictly after
    the clock reading validates with an empty error mapping, and
    [handleSubmit] calls [onSubmit] exactly once, with the record
    [{doctorId, date, notes}] of the current state; so does a press of the
    submit button when the form is not loading. *)
Theorem handleSubmit_valid_draft (now t : Z) (st : State) :
  doctorId st ≠ EmptyString →
  DateValue (date st) = Some t →
  now < t →
  (validateForm now st).1 = true ∧
  errors (validateForm now st).2 = ∅ ∧
  (handleSubmit now st).2 = [Appointment.mk (doctorId st) (date st) (notes st)] ∧
  (∀ LocalTZA Platform_OS props,
     isLoading props = false →
     (dispatch LocalTZA Platform_OS props now PressSubmit st).2 =
     [Appointment.mk (doctorId st) (date st) (notes st)]).
Proof.
  intros Hne Hd Hlt.
  assert (newErrors now st = ∅) as He.
  { apply newErrors_empty_iff. split; [by apply String_not_false|].
    unfold Date_lt, valueOf, Date_now. rewrite Hd. simpl.
    apply Z.ltb_ge. lia. }
  split; [by apply validateForm_valid_iff|].
  split; [by rewrite validateForm_errors|].
  split; [by rewrite handleSubmit_valid|].
  intros LocalTZA Platform_OS props Hl.
  rewrite dispatch_PressSubmit_ready by done.
  by rewrite handleSubmit_valid.
Qed.

Lemma handleSubmit_valid_draft_witness :
  (validateForm dec31_noon (draft "d1")).1 = true ∧
  errors (validateForm dec31_noon (draft "d1")).2 = ∅ ∧
  (handleSubmit dec31_noon (draft "d1")).2 =
    [Appointment.mk "d1" (mkDate (Some jan01_noon)) ""] ∧
  (dispatch Brasilia "android" props dec31_noon PressSubmit (draft "d1")).2 =
    [Appointment.mk "d1" (mkDate (Some jan01_noon)) ""].
Proof.
  destruct (handleSubmit_valid_draft dec31_noon jan01_noon (draft "d1"))
    as (H1 & H2 & H3 & H4); [discriminate | reflexivity | reflexivity |].
  split; [exact H1|]. split; [exact H2|]. split; [exact H3|].
  apply H4. reflexivity.
Defined.

(** C3. A draft whose [doctorId] is the empty string gets an error on field
    [doctorId], and neither [handleSubmit] nor a press of the submit button
    calls [onSubmit]. *)
Theorem validateForm_empty_doctorId (now : Z) (st : State) :
  doctorId st = EmptyString →
  errors (validateForm now st).2 !! "doctorId" = Some doctorId_message ∧
  (validateForm now st).1 = false ∧
  (handleSubmit now st).2 = [] ∧
  (∀ LocalTZA Platform_OS props,
     (dispatch LocalTZA Platform_OS props now PressSubmit st).2 = []).
Proof.
  intros Hd.
  assert (newErrors now st !! "doctorId" = Some doctorId_message) as Hk.
  { rewrite newErrors_doctorId. by rewrite (proj2 (String_not_true _) Hd). }
  assert (newErrors now st ≠ ∅) as Hne.
  { intros He. by rewrite He, lookup_empty in Hk. }
  split; [by rewrite validateForm_errors|].
  split.
  { destruct (validateForm now st).1 eqn:Hv; [|done].
    by apply validateForm_valid_iff in Hv. }
  split; [by rewrite handleSubmit_invalid|].
  intros LocalTZA Platform_OS props. simpl. unfold Button_press.
  destruct (negb (isLoading props) && negb (isLoading props)); [|done].
  by rewrite handleSubmit_invalid.
Qed.

Lemma validateForm_empty_doctorId_witness :
  errors (validateForm dec31_noon (draft "")).2 !! "doctorId" =
    Some doctorId_message ∧
  (validateForm dec31_noon (draft "")).1 = false ∧
  (handleSubmit dec31_noon (draft "")).2 = [] ∧
  (dispatch Brasilia "android" props dec31_noon PressSubmit (draft "")).2 = [].
Proof.
  destruct (validateForm_empty_doctorId dec31_noon (draft "") eq_refl)
    as (H1 & H2 & H3 & H4).
  split; [exact H1|]. split; [exact H2|]. split; [exact H3|]. apply H4.
Defined.

(** C6. While [isLoading] is true, pressing the submit button leaves the
    state as it is and never calls [onSubmit], whatever the draft; and so
    does every session of events delivered while it is true. *)
Theorem submit_disabled_while_loading LocalTZA Platform_OS (props : Props.t) :
  Props.isLoading props = Some true →
  (∀ now st,
     dispatch LocalTZA Platform_OS props now PressSubmit st = (st, [])) ∧
  (∀ evs st, (run LocalTZA Platform_OS props evs st).2 = []).
Proof.
  intros Hl.
  assert (isLoading props = true) as Hl' by (unfold isLoading; by rewrite Hl).
  split.
  - intros now st. simpl. unfold Button_press. by rewrite Hl'.
  - induction evs as [|[now ev] evs IH]; intros st; [done|].
    simpl.
    pose proof (dispatch_loading_no_call LocalTZA Platform_OS props now ev st Hl') as Hd.
    destruct (dispatch LocalTZA Platform_OS props now ev st) as [st1 calls1].
    specialize (IH st1).
    destruct (run LocalTZA Platform_OS props evs st1) as [st2 calls2].
    simpl in *. by subst.
Qed.

Lemma submit_disabled_while_loading_witness :
  Props.isLoading props_loading = Some true ∧
  (validateForm dec31_noon (draft "d1")).1 = true ∧
  dispatch Brasilia "android" props_loading dec31_noon PressSubmit (draft "d1") =
    (draft "d1", []).
Proof.
  split; [reflexivity|]. split; [reflexivity|].
  apply (submit_disabled_while_loading Brasilia "android" props_loading eq_refl).
Defined.

(** C7. [validateForm] returns true exactly when the mapping it has just
    stored has no entry; the stored mapping holds the fresh entries only (a
    [doctorId] entry exactly for an empty [doctorId], a [date] entry exactly
    for a date-time before the clock reading, nothing else), whatever mapping
    was stored before. *)
Theorem validateForm_replaces_errors (now : Z) (st : State) :
  ((validateForm now st).1 = true ↔ size (errors (validateForm now st).2) = 0%nat) ∧
  (∀ previous : gmap string string,
     (validateForm now (setErrors previous st)).1 = (validateForm now st).1 ∧
     errors (validateForm now (setErrors previous st)).2 =
     errors (validateForm now st).2) ∧
  (∀ k, is_Some (errors (validateForm now st).2 !! k) ↔
        (k = "doctorId" ∧ doctorId st = EmptyString) ∨
        (k = "date" ∧ Date_lt (date st) (Date_now now) = true)).
Proof.
  split; [|split].
  - rewrite validateForm_valid_iff, validateForm_errors.
    symmetry. apply map_size_empty_iff.
  - intros previous. split; reflexivity.
  - intros k. rewrite validateForm_errors.
    destruct (decide (k = "doctorId")) as [->|Hk1];
      [|destruct (decide (k = "date")) as [->|Hk2]].
    + rewrite newErrors_doctorId, <- String_not_true.
      destruct (String_not (doctorId st)).
      * split; [by left|by eauto].
      * split; [by intros [? [=]]|]. intros [[_ [=]]|[[=] _]].
    + rewrite newErrors_date.
      destruct (Date_lt (date st) (Date_now now)).
      * split; [by right|by eauto].
      * split; [by intros [? [=]]|]. intros [[[=] _]|[_ [=]]].
    + rewrite newErrors_other by done.
      split; [by intros [? [=]]|]. intros [[? _]|[? _]]; congruence.
Qed.

(** C8, as amended.  Two validation passes in succession on an unchanged
    draft, the first when the clock reads [now1] and the second when it reads
    [now2], store the same error mapping whenever the draft's date-time is
    strictly before both clock readings, or strictly after both, or both
    passes read the same value.  A draft whose date-time is a clock reading
    of one pass only is left aside. *)
Theorem validateForm_twice (now1 now2 t : Z) (st : State) :
  DateValue (date st) = Some t →
  (t < now1 ∧ t < now2) ∨ (now1 < t ∧ now2 < t) ∨ now1 = now2 →
  let st1 := (validateForm now1 st).2 in
  let st2 := (validateForm now2 st1).2 in
  (doctorId st1, date st1, notes st1) = (doctorId st, date st, notes st) ∧
  errors st2 = errors st1.
Proof.
  intros Hd Ht st1 st2. subst st1 st2.
  split; [reflexivity|].
  rewrite !validateForm_errors, validateForm_frame, newErrors_setErrors.
  assert (Date_lt (date st) (Date_now now2) = Date_lt (date st) (Date_now now1))
    as He.
  { unfold Date_lt, valueOf, Date_now. rewrite Hd. simpl.
    destruct Ht as [[H1 H2]|[[H1 H2]| ->]]; [| |done].
    - by rewrite (proj2 (Z.ltb_lt t now1) H1), (proj2 (Z.ltb_lt t now2) H2).
    - rewrite (proj2 (Z.ltb_ge t now1)), (proj2 (Z.ltb_ge t now2)); [done|lia|lia]. }
  unfold newErrors. by rewrite He.
Qed.

Lemma validateForm_twice_witness :
  DateValue (date (draft "d1")) = Some jan01_noon ∧
  (dec31_noon < jan01_noon ∧ dec31_noon + 1 < jan01_noon) ∧
  errors (validateForm (dec31_noon + 1) (validateForm dec31_noon (draft "d1")).2).2 =
  errors (validateForm dec31_noon (draft "d1")).2.
Proof.
  split; [reflexivity|]. split; [split; reflexivity|].
  apply (validateForm_twice dec31_noon (dec31_noon + 1) jan01_noon (draft "d1"));
    [reflexivity|].
  right. left. split; reflexivity.
Defined.

(** C8, as stated, fails: a draft dated between the two clock readings, one
    millisecond after the first and one before the second, passes the first
    validation and gets a [date] error in the second. *)
Lemma validateForm_twice_differs :
  let st := draft "d1" in
  let st1 := (validateForm (jan01_noon - 1) st).2 in
  let st2 := (validateForm (jan01_noon + 1) st1).2 in
  DateValue (date st) = Some jan01_noon ∧
  (doctorId st1, date st1, notes st1) = (doctorId st, date st, notes st) ∧
  errors st1 = ∅ ∧
  errors st2 = {[ "date" := date_message ]} ∧
  errors st2 ≠ errors st1.
Proof.
  intros st st1 st2.
  split; [reflexivity|]. split; [reflexivity|]. split; [reflexivity|].
  split; [reflexivity|].
  intros He.
  assert (errors st2 !! "date" = errors st1 !! "date") as Hk by (by rewrite He).
  vm_compute in Hk. discriminate.
Qed.

(** C9. A non-empty [doctorId] gets no [doctorId] error, also when no doctor
    of the list has that identifier; and the list of doctors has no part in
    what a session stores or forwards: two sessions that differ in the list
    only end in the same state, error mapping included, with the same
    [onSubmit] calls. *)
Theorem validation_ignores_doctors LocalTZA Platform_OS (props : Props.t)
    (now : Z) (st : State) :
  doctorId st ≠ EmptyString →
  errors (validateForm now st).2 !! "doctorId" = None ∧
  (validateForm now st).1 = negb (Date_lt (date st) (Date_now now)) ∧
  (∀ (doctors' : list Doctor) evs st0,
     run LocalTZA Platform_OS props evs st0 =
     run LocalTZA Platform_OS
         (Props.mk doctors' (Props.initialValues props) (Props.isLoading props))
         evs st0).
Proof.
  intros Hne.
  apply String_not_false in Hne.
  split; [|split].
  - rewrite validateForm_errors, newErrors_doctorId. by rewrite Hne.
  - destruct (validateForm now st).1 eqn:Hv.
    + apply validateForm_valid_iff, newErrors_empty_iff in Hv as [_ ->]. done.
    + destruct (Date_lt (date st) (Date_now now)) eqn:Hlt; [done|].
      assert ((validateForm now st).1 = true) as Hv'; [|congruence].
      by apply validateForm_valid_iff, newErrors_empty_iff.
  - intros doctors' evs. destruct props as [ds iv il]; simpl.
    induction evs as [|[now' ev] evs IH]; intros st0; [done|].
    simpl. rewrite (dispatch_doctors _ _ ds doctors').
    destruct (dispatch _ _ _ now' ev st0) as [st1 calls1].
    by rewrite IH.
Qed.

Lemma validation_ignores_doctors_witness :
  doctorId (draft "d9") ≠ EmptyString ∧
  ("d9" ∉ id <$> Props.doctors props) ∧
  errors (validateForm dec31_noon (draft "d9")).2 !! "doctorId" = None ∧
  (validateForm dec31_noon (draft "d9")).1 = true ∧
  (handleSubmit dec31_noon (draft "d9")).2 =
    [Appointment.mk "d9" (mkDate (Some jan01_noon)) ""].
Proof.
  split; [discriminate|].
  split; [intros [=]%list_elem_of_singleton|].
  destruct (validation_ignores_doctors Brasilia "android" props dec31_noon
              (draft "d9")) as (H1 & H2 & _); [discriminate|].
  split; [exact H1|]. split; [exact H2|]. reflexivity.
Defined.

(** C10. A picker change without a selected value leaves every slot of the
    state as it was, the combined date-time included, except that picker's
    visibility flag, which is set to whether the platform is iOS. *)
Theorem picker_change_without_value LocalTZA Platform_OS (st : State) :
  onDateChange LocalTZA Platform_OS None st =
    setShowDatePicker (String.eqb Platform_OS "ios") st ∧
  onTimeChange LocalTZA Platform_OS None st =
    setShowTimePicker (String.eqb Platform_OS "ios") st ∧
  date (onDateChange LocalTZA Platform_OS None st) = date st ∧
  date (onTimeChange LocalTZA Platform_OS None st) = date st.
Proof. repeat split. Qed.

End ValidationProofs.

(** * Splicing a picked date or time into the draft *)

Module SpliceProofs.

Import ES AppointmentForm DateProofs Samples.

Lemma Date_copy_valid (d : Date) (t : Z) :
  DateValue d = Some t → Z.abs t <= maxTime → Date_copy d = mkDate (Some t).
Proof.
  intros Hd Ht. unfold Date_copy. rewrite Hd. by rewrite TimeClip_in_range.
Qed.






(** The same in a zone with a fixed offset from UTC, where every local time
    exists: for a valid current date-time at least a day away from both ends
    of the range of time values and a valid selected time, the date-time
    stored by [onTimeChange] has the hour and the minute of the selected time
    and the local day of the current date-time, hence its year, month and
    date number; seconds and milliseconds stay as well, and so does every
    other slot but the visibility flag of the time picker. *)
Theorem onTimeChange_splices LocalTZA Platform_OS (off t s : Z) (st : State) :
  (∀ x isUTC, LocalTZA x isUTC = off) →
  DateValue (date st) = Some t →
  Z.abs t <= maxTime - msPerDay →
  let selectedTime := mkDate (Some s) in
  let st' := onTimeChange LocalTZA Platform_OS (Some selectedTime) st in
  (getHours LocalTZA (date st') = getHours LocalTZA selectedTime ∧
   getMinutes LocalTZA (date st') = getMinutes LocalTZA selectedTime) ∧
  (getFullYear LocalTZA (date st') = getFullYear LocalTZA (date st) ∧
   getMonth LocalTZA (date st') = getMonth LocalTZA (date st) ∧
   getDate LocalTZA (date st') = getDate LocalTZA (date st)) ∧
  (∃ t', DateValue (date st') = Some t' ∧
         Day (LocalTime LocalTZA t') = Day (LocalTime LocalTZA t)) ∧
  (getSeconds LocalTZA (date st') = getSeconds LocalTZA (date st) ∧
   getMilliseconds LocalTZA (date st') = getMilliseconds LocalTZA (date st)) ∧
  st' = setDate (date st') (setShowTimePicker (String.eqb Platform_OS "ios") st).
Proof.
  intros fixed Hd Hr selectedTime st'.
  assert (Z.abs t <= maxTime) as Hr' by (unfold msPerDay in Hr; lia).
  assert (date st' =
          setMinutes LocalTZA
            (setHours LocalTZA (mkDate (Some t))
               (Some (HourFromTime (s + off))))
            (Some (MinFromTime (s + off)))) as Hst'.
  { subst st' selectedTime. unfold onTimeChange. simpl.
    rewrite (Date_copy_valid _ _ Hd Hr').
    unfold getHours, getMinutes; simpl.
    by rewrite (LocalTime_fixed _ _ fixed). }
  destruct (setHours_fixed LocalTZA off fixed t t (HourFromTime (s + off)))
    as (t1 & Ht1 & Hday1 & Hh1 & Hm1 & Hs1 & Hms1);
    [exact Hr | reflexivity | apply HourFromTime_range |].
  destruct (setHours LocalTZA (mkDate (Some t)) _) as [v1] eqn:E1.
  simpl in Ht1. subst v1.
  destruct (setMinutes_fixed LocalTZA off fixed t t1 (MinFromTime (s + off)))
    as (t2 & Ht2 & Hday2 & Hh2 & Hm2 & Hs2 & Hms2);
    [exact Hr | exact Hday1 | apply MinFromTime_range |].
  rewrite <- Hst' in Ht2.
  unfold getHours, getMinutes, getFullYear, getMonth, getDate, getSeconds,
    getMilliseconds.
  rewrite Ht2, Hd. simpl. rewrite !(LocalTime_fixed _ _ fixed).
  repeat split.
  - congruence.
  - congruence.
  - f_equal. by apply YearFromTime_Day.
  - f_equal. by apply MonthFromTime_Day.
  - f_equal. by apply DateFromTime_Day.
  - exists t2. by rewrite !(LocalTime_fixed _ _ fixed).
  - congruence.
  - congruence.
Qed.

Lemma onTimeChange_splices_witness :
  (∀ x isUTC, Brasilia x isUTC = -10800000) ∧
  DateValue (date draft_jan31) = Some jan31_10h ∧
  Z.abs jan31_10h <= maxTime - msPerDay ∧
  getHours Brasilia (date draft_jan31) = Some 10 ∧
  getHours Brasilia (mkDate (Some jan31_14h30)) = Some 14 ∧
  getHours Brasilia
    (date (onTimeChange Brasilia "android" (Some (mkDate (Some jan31_14h30)))
             draft_jan31)) =
  getHours Brasilia (mkDate (Some jan31_14h30)).
Proof.
  split; [reflexivity|]. split; [reflexivity|]. split; [vm_compute; discriminate|].
  split; [reflexivity|]. split; [reflexivity|].
  apply (onTimeChange_splices Brasilia "android" (-10800000) jan31_10h
           jan31_14h30 draft_jan31);
    [reflexivity | reflexivity | vm_compute; discriminate].
Defined.

(** Where [onDateChange] does splice the picked date: in a zone with a fixed
    offset of at most a day, for a picked year with a day to spare in the
    range of time values, when the current date number exists both in the
    current month and in the picked month of the picked year.  Then no setter
    overflows into the next month. *)
Lemma onDateChange_splices_when_day_fits LocalTZA Platform_OS (off t s : Z)
    (st : State) :
  (∀ x isUTC, LocalTZA x isUTC = off) →
  Z.abs off <= msPerDay →
  DateValue (date st) = Some t →
  Z.abs t <= maxTime →
  -271820 <= YearFromTime (s + off) <= 275759 →
  DateFromTime (t + off) <=
    DaysInMonth (YearFromTime (s + off)) (MonthFromTime (t + off)) →
  DateFromTime (t + off) <=
    DaysInMonth (YearFromTime (s + off)) (MonthFromTime (s + off)) →
  let selectedDate := mkDate (Some s) in
  let st' := onDateChange LocalTZA Platform_OS (Some selectedDate) st in
  (getFullYear LocalTZA (date st') = getFullYear LocalTZA selectedDate ∧
   getMonth LocalTZA (date st') = getMonth LocalTZA selectedDate ∧
   getDate LocalTZA (date st') = getDate LocalTZA selectedDate) ∧
  (∃ t', DateValue (date st') = Some t' ∧
         TimeWithinDay (LocalTime LocalTZA t') =
         TimeWithinDay (LocalTime LocalTZA t)) ∧
  (getHours LocalTZA (date st') = getHours LocalTZA (date st) ∧
   getMinutes LocalTZA (date st') = getMinutes LocalTZA (date st) ∧
   getSeconds LocalTZA (date st') = getSeconds LocalTZA (date st) ∧
   getMilliseconds LocalTZA (date st') = getMilliseconds LocalTZA (date st)) ∧
  st' = setDate (date st') (setShowDatePicker (String.eqb Platform_OS "ios") st).
Proof.
  intros fixed Hoff Hd Hr Hy Hfit0 Hfit1 selectedDate st'.
  assert (date st' =
          ES.setDate LocalTZA
            (setMonth LocalTZA
               (setFullYear LocalTZA (mkDate (Some t))
                  (Some (YearFromTime (s + off))))
               (Some (MonthFromTime (s + off))))
            (Some (DateFromTime (s + off)))) as Hst'.
  { subst st' selectedDate. unfold onDateChange. simpl.
    rewrite (Date_copy_valid _ _ Hd Hr).
    unfold getFullYear, getMonth, getDate; simpl.
    by rewrite (LocalTime_fixed _ _ fixed). }
  destruct (setFullYear_fixed LocalTZA off fixed Hoff t _ Hy Hfit0)
    as (t1 & Ht1 & HY1 & HM1 & HD1 & HW1).
  destruct (setFullYear LocalTZA (mkDate (Some t)) _) as [v1] eqn:E1.
  simpl in Ht1. subst v1.
  destruct (setMonth_fixed LocalTZA off fixed Hoff t1 (MonthFromTime (s + off)))
    as (t2 & Ht2 & HY2 & HM2 & HD2 & HW2).
  { by rewrite HY1. }
  { apply MonthFromTime_range. }
  { by rewrite HY1, HD1. }
  destruct (setMonth LocalTZA (mkDate (Some t1)) _) as [v2] eqn:E2.
  simpl in Ht2. subst v2.
  destruct (setDate_fixed LocalTZA off fixed Hoff t2 (DateFromTime (s + off)))
    as (t3 & Ht3 & HY3 & HM3 & HD3 & HW3).
  { by rewrite HY2, HY1. }
  { rewrite HY2, HY1, HM2. apply DateFromTime_range. }
  rewrite <- Hst' in Ht3.
  assert (TimeWithinDay (t3 + off) = TimeWithinDay (t + off)) as HW by congruence.
  destruct (fields_within_day _ _ HW) as (Hh & Hm & Hs & Hms).
  unfold getFullYear, getMonth, getDate, getHours, getMinutes, getSeconds,
    getMilliseconds.
  rewrite Ht3, Hd. simpl. rewrite !(LocalTime_fixed _ _ fixed).
  repeat split; try congruence.
  exists t3. by rewrite !(LocalTime_fixed _ _ fixed).
Qed.

(** The time of day survives [onDateChange] in any case: in a zone with a
    fixed offset, whenever the stored date is valid, its local time within
    the day, and so its hour, minute, second and millisecond, are those of
    the date-time before. *)
Lemma onDateChange_keeps_time_of_day LocalTZA Platform_OS (off t t' : Z)
    (selectedDate : Date) (st : State) :
  (∀ x isUTC, LocalTZA x isUTC = off) →
  DateValue (date st) = Some t →
  Z.abs t <= maxTime →
  DateValue (date (onDateChange LocalTZA Platform_OS (Some selectedDate) st)) =
    Some t' →
  TimeWithinDay (LocalTime LocalTZA t') = TimeWithinDay (LocalTime LocalTZA t) ∧
  getHours LocalTZA (mkDate (Some t')) = getHours LocalTZA (date st) ∧
  getMinutes LocalTZA (mkDate (Some t')) = getMinutes LocalTZA (date st).
Proof.
  intros fixed Hd Hr.
  unfold onDateChange; simpl. rewrite (Date_copy_valid _ _ Hd Hr).
  destruct (setFullYear LocalTZA (mkDate (Some t)) _) as [[t1|]] eqn:E1;
    [|done].
  destruct (setMonth LocalTZA (mkDate (Some t1)) _) as [[t2|]] eqn:E2;
    [|done].
  intros E3.
  apply (f_equal DateValue), (setFullYear_keeps_time _ _ fixed) in E1.
  apply (f_equal DateValue), (setMonth_keeps_time _ _ fixed) in E2.
  apply (setDate_keeps_time _ _ fixed) in E3.
  assert (TimeWithinDay (t' + off) = TimeWithinDay (t + off)) as HW
    by congruence.
  destruct (fields_within_day _ _ HW) as (Hh & Hm & _).
  unfold getHours, getMinutes. rewrite Hd. simpl.
  rewrite !(LocalTime_fixed _ _ fixed). by rewrite HW, Hh, Hm.
Qed.

(** The fields of the date stored by [onDateChange] when no setter carries
    over. *)
Lemma onDateChange_fits_fields LocalTZA Platform_OS (off t s : Z) (st : State) :
  (∀ x isUTC, LocalTZA x isUTC = off) →
  Z.abs off <= msPerDay →
  DateValue (date st) = Some t →
  Z.abs t <= maxTime →
  -271820 <= YearFromTime (s + off) <= 275759 →
  DateFromTime (t + off) <=
    DaysInMonth (YearFromTime (s + off)) (MonthFromTime (t + off)) →
  DateFromTime (t + off) <=
    DaysInMonth (YearFromTime (s + off)) (MonthFromTime (s + off)) →
  ∃ t', date (onDateChange LocalTZA Platform_OS (Some (mkDate (Some s))) st) =
          mkDate (Some t') ∧
        YearFromTime (t' + off) = YearFromTime (s + off) ∧
        MonthFromTime (t' + off) = MonthFromTime (s + off) ∧
        DateFromTime (t' + off) = DateFromTime (s + off) ∧
        TimeWithinDay (t' + off) = TimeWithinDay (t + off).
Proof.
  intros fixed Hoff Hd Hr Hy Hfit0 Hfit1.
  destruct (setFullYear_fixed LocalTZA off fixed Hoff t _ Hy Hfit0)
    as (t1 & Ht1 & HY1 & HM1 & HD1 & HW1).
  destruct (setMonth_fixed LocalTZA off fixed Hoff t1 (MonthFromTime (s + off)))
    as (t2 & Ht2 & HY2 & HM2 & HD2 & HW2).
  { by rewrite HY1. }
  { apply MonthFromTime_range. }
  { by rewrite HY1, HD1. }
  destruct (setDate_fixed LocalTZA off fixed Hoff t2 (DateFromTime (s + off)))
    as (t3 & Ht3 & HY3 & HM3 & HD3 & HW3).
  { by rewrite HY2, HY1. }
  { rewrite HY2, HY1, HM2. apply DateFromTime_range. }
  exists t3. split.
  - unfold onDateChange. simpl. rewrite (Date_copy_valid _ _ Hd Hr).
    unfold getFullYear, getMonth, getDate. simpl.
    rewrite (LocalTime_fixed _ _ fixed).
    destruct (setFullYear LocalTZA (mkDate (Some t)) _) as [v1].
    simpl in Ht1. subst v1.
    destruct (setMonth LocalTZA (mkDate (Some t1)) _) as [v2].
    simpl in Ht2. subst v2.
    destruct (ES.setDate LocalTZA (mkDate (Some t2)) _) as [v3].
    simpl in Ht3. by subst v3.
  - repeat split; congruence.
Qed.

(** In particular whenever the current date number is at most 28. *)
Lemma onDateChange_splices_up_to_28 LocalTZA Platform_OS (off t s : Z)
    (st : State) :
  (∀ x isUTC, LocalTZA x isUTC = off) →
  Z.abs off <= msPerDay →
  DateValue (date st) = Some t →
  Z.abs t <= maxTime →
  -271820 <= YearFromTime (s + off) <= 275759 →
  DateFromTime (t + off) <= 28 →
  let selectedDate := mkDate (Some s) in
  let st' := onDateChange LocalTZA Platform_OS (Some selectedDate) st in
  getFullYear LocalTZA (date st') = getFullYear LocalTZA selectedDate ∧
  getMonth LocalTZA (date st') = getMonth LocalTZA selectedDate ∧
  getDate LocalTZA (date st') = getDate LocalTZA selectedDate ∧
  getHours LocalTZA (date st') = getHours LocalTZA (date st) ∧
  getMinutes LocalTZA (date st') = getMinutes LocalTZA (date st).
Proof.
  intros fixed Hoff Hd Hr Hy H28 selectedDate st'.
  assert (∀ y mn, 28 <= DaysInMonth y mn) as Hmin.
  { intros y mn. unfold DaysInMonth. repeat case_match; lia. }
  destruct (onDateChange_fits_fields LocalTZA Platform_OS off t s st)
    as (t' & Ht' & HY & HM & HD & HW); try done.
  { specialize (Hmin (YearFromTime (s + off)) (MonthFromTime (t + off))). lia. }
  { specialize (Hmin (YearFromTime (s + off)) (MonthFromTime (s + off))). lia. }
  destruct (fields_within_day _ _ HW) as (Hh & Hm & _).
  subst st' selectedDate. rewrite Ht'.
  unfold getFullYear, getMonth, getDate, getHours, getMinutes.
  rewrite Hd. simpl. rewrite !(LocalTime_fixed _ _ fixed).
  repeat split; congruence.
Qed.

(** C4. The claim asks that the date-time stored by [onDateChange] has the
    year, month and date number of the picked date.  The code sets them one
    after the other on a copy of the current date-time, and a date number the
    picked month does not have carries into the next month: with the draft on
    2025-01-31 at 10:00 and 2025-02-15 picked, [setMonth(1)] asks for 31
    February, which is 3 March, and the stored date is 2025-03-15 at 10:00. *)
Theorem onDateChange_month_end :
  let selectedDate := mkDate (Some feb15_00h) in
  let st' := onDateChange Brasilia "android" (Some selectedDate) draft_jan31 in
  (getFullYear Brasilia (date draft_jan31), getMonth Brasilia (date draft_jan31),
   getDate Brasilia (date draft_jan31), getHours Brasilia (date draft_jan31),
   getMinutes Brasilia (date draft_jan31)) =
    (Some 2025, Some 0, Some 31, Some 10, Some 0) ∧
  (getFullYear Brasilia selectedDate, getMonth Brasilia selectedDate,
   getDate Brasilia selectedDate) = (Some 2025, Some 1, Some 15) ∧
  (getFullYear Brasilia (date st'), getMonth Brasilia (date st'),
   getDate Brasilia (date st'), getHours Brasilia (date st'),
   getMinutes Brasilia (date st')) =
    (Some 2025, Some 2, Some 15, Some 10, Some 0) ∧
  getMonth Brasilia (date st') ≠ getMonth Brasilia selectedDate.
Proof.
  intros selectedDate st'.
  split; [reflexivity|]. split; [reflexivity|]. split; [reflexivity|].
  vm_compute. discriminate.
Qed.

End SpliceProofs.

(** * Sessions of events *)

Module SessionProofs.

Import ES AppointmentForm Samples ValidationProofs.

Section Session.

Variable LocalTZA : Z → bool → Z.
Variable Platform_OS : string.
Variable props : Props.t.

Local Abbreviation dispatch := (dispatch LocalTZA Platform_OS props).
Local Abbreviation run := (run LocalTZA Platform_OS props).

Lemma run_cons (now : Z) (ev : Event) (evs : list (Z * Event)) (st : State) :
  run ((now, ev) :: evs) st =
  ((run evs (dispatch now ev st).1).1,
   (dispatch now ev st).2 ++ (run evs (dispatch now ev st).1).2).
Proof.
  simpl. destruct (dispatch now ev st) as [st1 calls1]; simpl.
  by destruct (run evs st1).
Qed.

Lemma handleSubmit_state (now : Z) (st : State) :
  (handleSubmit now st).1 = setErrors (newErrors now st) st.
Proof.
  destruct (decide (newErrors now st = ∅)) as [He|He].
  - rewrite (handleSubmit_valid _ _ He). by rewrite He.
  - by rewrite (handleSubmit_invalid _ _ He).
Qed.

Lemma handleSubmit_at_most_once (now : Z) (st : State) :
  (length (handleSubmit now st).2 <= 1)%nat.
Proof.
  destruct (decide (newErrors now st = ∅)) as [He|He].
  - rewrite (handleSubmit_valid _ _ He). simpl. lia.
  - rewrite (handleSubmit_invalid _ _ He). simpl. lia.
Qed.

(** Only a press of the submit button stores errors or calls [onSubmit]. *)
Lemma dispatch_other (now : Z) (ev : Event) (st : State) :
  isPressSubmit ev = false →
  errors (dispatch now ev st).1 = errors st ∧ (dispatch now ev st).2 = [].
Proof.
  intros Hev. destruct ev as [| | | |sel|sel|]; simpl in *; try done.
  - destruct (showDatePicker st); [|done]. by destruct sel.
  - destruct (showTimePicker st); [|done]. by destruct sel.
Qed.

Lemma dispatch_draftOf (now : Z) (ev : Event) (st : State) :
  editsDraft ev = false → draftOf (dispatch now ev st).1 = draftOf st.
Proof.
  intros Hev. destruct ev as [| | | |[sel|]|[sel|]|]; simpl in *; try done.
  - by destruct (showDatePicker st).
  - by destruct (showTimePicker st).
  - unfold Button_press.
    destruct (negb (isLoading props) && negb (isLoading props)); [|done].
    by rewrite handleSubmit_state.
Qed.

Lemma dispatch_date (now : Z) (ev : Event) (st : State) :
  picksDateTime ev = false → date (dispatch now ev st).1 = date st.
Proof.
  intros Hev. destruct ev as [| | | |[sel|]|[sel|]|]; simpl in *; try done.
  - by destruct (showDatePicker st).
  - by destruct (showTimePicker st).
  - unfold Button_press.
    destruct (negb (isLoading props) && negb (isLoading props)); [|done].
    by rewrite handleSubmit_state.
Qed.

Lemma dispatch_at_most_once (now : Z) (ev : Event) (st : State) :
  (length (dispatch now ev st).2 <= if isPressSubmit ev then 1 else 0)%nat.
Proof.
  destruct (isPressSubmit ev) eqn:Hev.
  - destruct ev; try done. simpl. unfold Button_press.
    destruct (negb (isLoading props) && negb (isLoading props)).
    + apply handleSubmit_at_most_once.
    + simpl. lia.
  - by rewrite (proj2 (dispatch_other now ev st Hev)).
Qed.

(** The error mapping shown to the user only changes when the submit button
    is pressed: through any session without a press it stays what it was,
    also after the user has mended the field it complains about, and
    [onSubmit] is not called. *)
Theorem run_without_submit (evs : list (Z * Event)) (st : State) :
  Forall (λ e, isPressSubmit e.2 = false) evs →
  errors (run evs st).1 = errors st ∧ (run evs st).2 = [].
Proof.
  intros Hevs. revert st.
  induction Hevs as [|[now ev] evs Hev _ IH]; intros st; [done|].
  rewrite run_cons. simpl in *.
  destruct (dispatch_other now ev st Hev) as [He Hc].
  destruct (IH (dispatch now ev st).1) as [He' Hc'].
  by rewrite He', He, Hc, Hc'.
Qed.

(** [onSubmit] is called at most once per press of the submit button. *)
Theorem run_calls_bounded (evs : list (Z * Event)) (st : State) :
  (length (run evs st).2 <= submitPresses evs)%nat.
Proof.
  revert st. induction evs as [|[now ev] evs IH]; intros st; [done|].
  rewrite run_cons. simpl. rewrite length_app.
  pose proof (dispatch_at_most_once now ev st) as Hd.
  specialize (IH (dispatch now ev st).1).
  unfold submitPresses in *. rewrite filter_cons. simpl.
  destruct (isPressSubmit ev); case_decide; try done; simpl; lia.
Qed.

(** Pressing buttons and dismissing pickers never alters the draft: a
    submit, accepted or not, leaves doctor, date-time and notes in place. *)
Theorem run_keeps_draft (evs : list (Z * Event)) (st : State) :
  Forall (λ e, editsDraft e.2 = false) evs →
  draftOf (run evs st).1 = draftOf st.
Proof.
  intros Hevs. revert st.
  induction Hevs as [|[now ev] evs Hev _ IH]; intros st; [done|].
  rewrite run_cons. simpl in *.
  by rewrite IH, dispatch_draftOf.
Qed.

(** Nothing guards against a second submission but [isLoading]: while it
    stays false, every press made while the draft is valid forwards the same
    draft again. *)
Theorem run_repeated_submit (nows : list Z) (t : Z) (st : State) :
  isLoading props = false →
  doctorId st ≠ EmptyString →
  DateValue (date st) = Some t →
  Forall (λ now, now <= t) nows →
  (run (map (λ now, (now, PressSubmit)) nows) st).2 =
  replicate (length nows) (draftOf st).
Proof.
  intros Hl Hne Hd Hnows. revert st Hne Hd.
  induction Hnows as [|now nows Hnow _ IH]; intros st Hne Hd; [done|].
  cbn [map]. rewrite run_cons.
  rewrite dispatch_PressSubmit_ready by done.
  assert (newErrors now st = ∅) as He.
  { apply newErrors_empty_iff. split; [by apply String_not_false|].
    unfold Date_lt, valueOf, Date_now. rewrite Hd. simpl.
    apply Z.ltb_ge. lia. }
  rewrite (handleSubmit_valid _ _ He). simpl.
  by rewrite IH.
Qed.

(** While the draft's date-time is before the clock, no press of the submit
    button calls [onSubmit], until a picker hands in a date or a time. *)
Lemma run_stale_date (evs : list (Z * Event)) (t : Z) (st : State) :
  DateValue (date st) = Some t →
  Forall (λ e, t < e.1 ∧ picksDateTime e.2 = false) evs →
  (run evs st).2 = [].
Proof.
  intros Hd Hevs. revert st Hd.
  induction Hevs as [|[now ev] evs [Hnow Hev] _ IH]; intros st Hd; [done|].
  rewrite run_cons. simpl in *.
  rewrite IH by (by rewrite dispatch_date).
  rewrite app_nil_r.
  destruct (isPressSubmit ev) eqn:Hp;
    [|by apply (dispatch_other now ev st)].
  destruct ev; try done. simpl. unfold Button_press.
  destruct (negb (isLoading props) && negb (isLoading props)); [|done].
  rewrite handleSubmit_invalid; [done|].
  intros [_ Hlt]%newErrors_empty_iff.
  unfold Date_lt, valueOf, Date_now in Hlt. rewrite Hd in Hlt. simpl in Hlt.
  apply Z.ltb_ge in Hlt. lia.
Qed.

(** A form mounted without initial values starts at the date-time of the
    clock, so once the clock has moved on it cannot be submitted as it
    stands: whatever doctor and notes are entered, no press of the submit
    button calls [onSubmit] until a picker hands in a date or a time. *)
Theorem fresh_form_needs_a_date (now0 : Z) (evs : list (Z * Event)) :
  Props.initialValues props = None →
  Forall (λ e, now0 < e.1 ∧ picksDateTime e.2 = false) evs →
  initialState props now0 =
    mkState EmptyString (Date_now now0) EmptyString false false ∅ ∧
  (run evs (initialState props now0)).2 = [].
Proof.
  intros Hiv Hevs.
  assert (initialState props now0 =
          mkState EmptyString (Date_now now0) EmptyString false false ∅) as Hi.
  { unfold initialState. by rewrite Hiv. }
  split; [done|].
  apply (run_stale_date evs now0); [by rewrite Hi | done].
Qed.

(** A picker is rendered while its flag is set, and off iOS a change clears
    the flag: there the picker is gone after one change, and a further change
    from it is not acted upon until its button is pressed again. *)
Theorem picker_closes_after_change (now now' : Z) (sel sel' : option Date)
    (st : State) :
  Platform_OS ≠ "ios" →
  (showDatePicker (dispatch now (DatePickerChange sel) st).1 = false ∧
   run [(now, DatePickerChange sel); (now', DatePickerChange sel')] st =
   run [(now, DatePickerChange sel)] st) ∧
  (showTimePicker (dispatch now (TimePickerChange sel) st).1 = false ∧
   run [(now, TimePickerChange sel); (now', TimePickerChange sel')] st =
   run [(now, TimePickerChange sel)] st).
Proof.
  intros Hos. apply String.eqb_neq in Hos.
  split.
  - assert (showDatePicker (dispatch now (DatePickerChange sel) st).1 = false)
      as Hf.
    { simpl. destruct (showDatePicker st) eqn:E; [|done].
      unfold onDateChange. rewrite Hos. by destruct sel. }
    split; [done|].
    rewrite !run_cons. cbn [AppointmentForm.run].
    cbn [AppointmentForm.dispatch] in *. by rewrite Hf.
  - assert (showTimePicker (dispatch now (TimePickerChange sel) st).1 = false)
      as Hf.
    { simpl. destruct (showTimePicker st) eqn:E; [|done].
      unfold onTimeChange. rewrite Hos. by destruct sel. }
    split; [done|].
    rewrite !run_cons. cbn [AppointmentForm.run].
    cbn [AppointmentForm.dispatch] in *. by rewrite Hf.
Qed.


End Session.

(** As the clock moves on a draft can only lose its validity: the errors of
    a validation pass are among those of any later pass on the same draft. *)
Theorem validateForm_later (now1 now2 : Z) (st : State) :
  now1 <= now2 →
  errors (validateForm now1 st).2 ⊆ errors (validateForm now2 st).2 ∧
  ((validateForm now2 st).1 = true → (validateForm now1 st).1 = true).
Proof.
  intros Hle.
  assert (Date_lt (date st) (Date_now now1) = true →
          Date_lt (date st) (Date_now now2) = true) as Hmono.
  { rewrite !Date_lt_now. intros (t & Hd & Hlt). exists t. split; [done|lia]. }
  split.
  - rewrite !validateForm_errors. apply map_subseteq_spec. intros k v.
    destruct (decide (k = "doctorId")) as [->|Hk1];
      [|destruct (decide (k = "date")) as [->|Hk2]].
    + by rewrite !newErrors_doctorId.
    + rewrite !newErrors_date.
      destruct (Date_lt (date st) (Date_now now1)); [|done].
      by rewrite Hmono.
    + by rewrite !newErrors_other.
  - rewrite !validateForm_valid_iff, !newErrors_empty_iff.
    intros [H1 H2]. split; [done|].
    destruct (Date_lt (date st) (Date_now now1)); [|done].
    by rewrite Hmono in H2.
Qed.

End SessionProofs.

(** * Time values determined by their fields *)

Module TimeValueProofs.

Import ES AppointmentForm DateProofs SpliceProofs.

Lemma TimeWithinDay_decompose (t : Z) :
  TimeWithinDay t =
  HourFromTime t * msPerHour + MinFromTime t * msPerMinute +
  SecFromTime t * msPerSecond + msFromTime t.
Proof.
  unfold TimeWithinDay, HourFromTime, MinFromTime, SecFromTime, msFromTime,
    HoursPerDay, MinutesPerHour, SecondsPerMinute, msPerDay, msPerHour,
    msPerMinute, msPerSecond.
  Z.to_euclidean_division_equations. lia.
Qed.


(** A time value is determined by its day and its time within the day, and
    these by the seven fields. *)
Lemma time_value_of_day (t t' : Z) :
  Day t = Day t' → TimeWithinDay t = TimeWithinDay t' → t = t'.
Proof.
  intros Hd Hw.
  rewrite (Day_TimeWithinDay t), (Day_TimeWithinDay t'). by rewrite Hd, Hw.
Qed.


Lemma TimeWithinDay_of_time (t t' : Z) :
  HourFromTime t = HourFromTime t' →
  MinFromTime t = MinFromTime t' →
  SecFromTime t = SecFromTime t' →
  msFromTime t = msFromTime t' →
  TimeWithinDay t = TimeWithinDay t'.
Proof.
  intros Hh Hm Hs Hms.
  rewrite (TimeWithinDay_decompose t), (TimeWithinDay_decompose t').
  by rewrite Hh, Hm, Hs, Hms.
Qed.

Section FixedOffsetDay.

Variable LocalTZA : Z → bool → Z.
Variable Platform_OS : string.
Variable off : Z.
Hypothesis fixed : ∀ t isUTC, LocalTZA t isUTC = off.

(** The fields of the date stored by [onTimeChange], for a draft on a local
    day every instant of which is in the range of time values. *)
Lemma onTimeChange_fields (t s : Z) (st : State) :
  DateValue (date st) = Some t →
  (∀ x, Day (x + off) = Day (t + off) → Z.abs x <= maxTime) →
  ∃ t', date (onTimeChange LocalTZA Platform_OS (Some (mkDate (Some s))) st) =
          mkDate (Some t') ∧
        Day (t' + off) = Day (t + off) ∧
        HourFromTime (t' + off) = HourFromTime (s + off) ∧
        MinFromTime (t' + off) = MinFromTime (s + off) ∧
        SecFromTime (t' + off) = SecFromTime (t + off) ∧
        msFromTime (t' + off) = msFromTime (t + off).
Proof.
  intros Hd Hday.
  pose proof (HourFromTime_range (s + off)) as Hh.
  pose proof (MinFromTime_range (s + off)) as Hm.
  pose proof (SecFromTime_range (t + off)) as Hs.
  pose proof (msFromTime_range (t + off)) as Hms.
  pose proof (MinFromTime_range (t + off)) as Hm0.
  set (x1 := Day (t + off) * msPerDay +
             (HourFromTime (s + off) * msPerHour +
              MinFromTime (t + off) * msPerMinute +
              SecFromTime (t + off) * msPerSecond + msFromTime (t + off))).
  set (x2 := Day (t + off) * msPerDay +
             (HourFromTime (s + off) * msPerHour +
              MinFromTime (s + off) * msPerMinute +
              SecFromTime (t + off) * msPerSecond + msFromTime (t + off))).
  assert (Day x1 = Day (t + off)) as Hd1 by (subst x1; by rewrite Day_fields).
  assert (Day x2 = Day (t + off)) as Hd2 by (subst x2; by rewrite Day_fields).
  assert (setHours LocalTZA (mkDate (Some t)) (Some (HourFromTime (s + off))) =
          mkDate (Some (x1 - off))) as E1.
  { rewrite setHours_Some. cbv zeta.
    rewrite (LocalTime_fixed _ _ fixed), (UTC_fixed _ _ fixed). fold x1.
    rewrite TimeClip_in_range; [done|].
    apply Hday. by replace (x1 - off + off) with x1 by lia. }
  assert (setMinutes LocalTZA (mkDate (Some (x1 - off)))
            (Some (MinFromTime (s + off))) = mkDate (Some (x2 - off))) as E2.
  { rewrite setMinutes_Some. cbv zeta.
    rewrite (LocalTime_fixed _ _ fixed), (UTC_fixed _ _ fixed).
    replace (x1 - off + off) with x1 by lia.
    rewrite Hd1. subst x1.
    rewrite HourFromTime_fields, SecFromTime_fields, msFromTime_fields by done.
    fold x2. rewrite TimeClip_in_range; [done|].
    apply Hday. by replace (x2 - off + off) with x2 by lia. }
  exists (x2 - off).
  replace (x2 - off + off) with x2 by lia.
  split.
  - unfold onTimeChange. simpl.
    rewrite (Date_copy_valid _ _ Hd) by (by apply Hday).
    unfold getHours, getMinutes. simpl.
    rewrite (LocalTime_fixed _ _ fixed). by rewrite E1, E2.
  - split; [done|]. subst x2.
    by rewrite HourFromTime_fields, MinFromTime_fields, SecFromTime_fields,
       msFromTime_fields.
Qed.

(** A day at least a day inside the range, seen from one of its instants. *)
Lemma day_in_range (t : Z) :
  Z.abs t <= maxTime - msPerDay →
  ∀ x, Day (x + off) = Day (t + off) → Z.abs x <= maxTime.
Proof. intros Hr x Hx. by apply (same_day_in_range off t x). Qed.

End FixedOffsetDay.

End TimeValueProofs.

(** * Picker changes one after the other *)

Module ComposeProofs.

Import ES AppointmentForm Samples DateProofs SpliceProofs TimeValueProofs.

Section FixedOffsetCompose.

Variable LocalTZA : Z → bool → Z.
Variable Platform_OS : string.
Variable off : Z.
Hypothesis fixed : ∀ t isUTC, LocalTZA t isUTC = off.

Local Abbreviation onTimeChange := (onTimeChange LocalTZA Platform_OS).
Local Abbreviation onDateChange := (onDateChange LocalTZA Platform_OS).

Lemma onTimeChange_state (sel : Date) (st : State) :
  onTimeChange (Some sel) st =
  setDate (date (onTimeChange (Some sel) st))
          (setShowTimePicker (String.eqb Platform_OS "ios") st).
Proof. reflexivity. Qed.



(** A time picked after another replaces it altogether: the state is the
    one the second pick alone would have given, so picking the same time
    twice is picking it once. *)
Theorem onTimeChange_last_wins (t s1 s2 : Z) (st : State) :
  DateValue (date st) = Some t →
  Z.abs t <= maxTime - msPerDay →
  onTimeChange (Some (mkDate (Some s2)))
    (onTimeChange (Some (mkDate (Some s1))) st) =
  onTimeChange (Some (mkDate (Some s2))) st.
Proof.
  intros Hd Hr.
  pose proof (day_in_range off t Hr) as Hday.
  destruct (onTimeChange_fields LocalTZA Platform_OS off fixed t s1 st Hd Hday)
    as (t1 & E1 & Hd1 & _ & _ & Hs1 & Hms1).
  destruct (onTimeChange_fields LocalTZA Platform_OS off fixed t s2 st Hd Hday)
    as (t2 & E2 & Hd2 & Hh2 & Hm2 & Hs2 & Hms2).
  set (st1 := onTimeChange (Some (mkDate (Some s1))) st) in *.
  destruct (onTimeChange_fields LocalTZA Platform_OS off fixed t1 s2 st1)
    as (t3 & E3 & Hd3 & Hh3 & Hm3 & Hs3 & Hms3).
  { by rewrite E1. }
  { intros x Hx. apply Hday. congruence. }
  assert (t3 = t2) as ->.
  { assert (t3 + off = t2 + off) as Heq; [|lia].
    apply time_value_of_day; [congruence|].
    apply TimeWithinDay_of_time; congruence. }
  rewrite (onTimeChange_state _ st1), (onTimeChange_state _ st), E3, E2.
  subst st1. by rewrite (onTimeChange_state _ st).
Qed.

(** [onTimeChange] moves the draft's instant by the difference between the
    picked and the current hour and minute, and by nothing else. *)
Theorem onTimeChange_shift (t s : Z) (st : State) :
  DateValue (date st) = Some t →
  Z.abs t <= maxTime - msPerDay →
  ∃ t', date (onTimeChange (Some (mkDate (Some s))) st) = mkDate (Some t') ∧
        t' - t =
        (HourFromTime (LocalTime LocalTZA s) -
         HourFromTime (LocalTime LocalTZA t)) * msPerHour +
        (MinFromTime (LocalTime LocalTZA s) -
         MinFromTime (LocalTime LocalTZA t)) * msPerMinute.
Proof.
  intros Hd Hr.
  pose proof (day_in_range off t Hr) as Hday.
  destruct (onTimeChange_fields LocalTZA Platform_OS off fixed t s st Hd Hday)
    as (t' & E & Hd' & Hh & Hm & Hs & Hms).
  exists t'. split; [done|].
  rewrite !(LocalTime_fixed _ _ fixed).
  pose proof (Day_TimeWithinDay (t' + off)) as H1.
  pose proof (Day_TimeWithinDay (t + off)) as H2.
  rewrite (TimeWithinDay_decompose (t' + off)) in H1.
  rewrite (TimeWithinDay_decompose (t + off)) in H2.
  rewrite Hd', Hh, Hm, Hs, Hms in H1. lia.
Qed.

Hypothesis off_small : Z.abs off <= msPerDay.







End FixedOffsetCompose.

End ComposeProofs.

(** * Invalid dates *)

Module InvalidDateProofs.

Import ES AppointmentForm Samples ValidationProofs.

(** An invalid date handed in by a picker makes the draft's date invalid,
    whatever it was, in any time zone; and once the draft's date is invalid,
    no time handed in by the time picker makes it valid again. *)
Theorem picker_invalid_date LocalTZA Platform_OS (sel : Date) (st : State) :
  DateValue (date (onDateChange LocalTZA Platform_OS (Some (mkDate NaN)) st)) = NaN ∧
  DateValue (date (onTimeChange LocalTZA Platform_OS (Some (mkDate NaN)) st)) = NaN ∧
  DateValue (date (onTimeChange LocalTZA Platform_OS (Some sel)
                     (setDate (mkDate NaN) st))) = NaN.
Proof.
  unfold onDateChange, onTimeChange, Date_copy. simpl.
  destruct (TimeClip (DateValue (date st))) as [t|]; done.
Qed.

(** An invalid draft date is never reported: at any clock reading it gets no
    [date] error, and with a doctor selected the draft is forwarded with it. *)
Theorem handleSubmit_invalid_date (now : Z) (st : State) :
  DateValue (date st) = NaN →
  errors (validateForm now st).2 !! "date" = None ∧
  (doctorId st ≠ EmptyString →
   handleSubmit now st = (setErrors ∅ st, [draftOf st])).
Proof.
  intros Hd.
  assert (Date_lt (date st) (Date_now now) = false) as Hlt.
  { unfold Date_lt, valueOf. by rewrite Hd. }
  split.
  - rewrite validateForm_errors, newErrors_date. by rewrite Hlt.
  - intros Hne. apply handleSubmit_valid, newErrors_empty_iff.
    split; [by apply String_not_false|done].
Qed.

End InvalidDateProofs.

(** * The properties at sample inputs *)

Module Witnesses.

Import ES AppointmentForm Samples DateProofs ValidationProofs SpliceProofs
  SessionProofs ComposeProofs InvalidDateProofs.

Lemma Brasilia_fixed : ∀ x isUTC, Brasilia x isUTC = -10800000.
Proof. reflexivity. Qed.

(** Closes a comparison or a range between evaluated numbers. *)
Ltac by_evaluation :=
  vm_compute; first [discriminate | split; discriminate | reflexivity].

Lemma run_forwarded_doctorId_witness :
  (run Brasilia "android" props [(dec31_noon, PressSubmit)] (draft "d1")).2 =
    [draftOf (draft "d1")] ∧
  Appointment.doctorId (draftOf (draft "d1")) ≠ EmptyString.
Proof.
  split; [reflexivity|].
  apply (run_forwarded_doctorId Brasilia "android" props
           [(dec31_noon, PressSubmit)] (draft "d1")).
  change (draftOf (draft "d1") ∈ [draftOf (draft "d1")]).
  apply list_elem_of_here.
Defined.

Lemma run_without_submit_witness :
  let st := setErrors {[ "doctorId" := doctorId_message ]} (draft "") in
  let evs := [(dec31_noon, SelectDoctor "d1"); (dec31_noon + 1, ChangeNotes "retorno")] in
  doctorId (run Brasilia "android" props evs st).1 = "d1" ∧
  errors (run Brasilia "android" props evs st).1 =
    {[ "doctorId" := doctorId_message ]} ∧
  (run Brasilia "android" props evs st).2 = [].
Proof.
  intros st evs. split; [reflexivity|].
  apply (run_without_submit Brasilia "android" props evs st).
  repeat constructor.
Defined.

Lemma run_keeps_draft_witness :
  let evs := [(dec31_noon, PressSubmit); (dec31_noon + 1, PressDateButton);
              (dec31_noon + 2, DatePickerChange None)] in
  (run Brasilia "android" props evs (draft "d1")).2 = [draftOf (draft "d1")] ∧
  draftOf (run Brasilia "android" props evs (draft "d1")).1 =
    draftOf (draft "d1").
Proof.
  intros evs. split; [reflexivity|].
  apply (run_keeps_draft Brasilia "android" props evs (draft "d1")).
  repeat constructor.
Defined.

Lemma run_repeated_submit_witness :
  (run Brasilia "android" props
       [(dec31_noon, PressSubmit); (dec31_noon + 1000, PressSubmit)]
       (draft "d1")).2 =
  [draftOf (draft "d1"); draftOf (draft "d1")].
Proof.
  apply (run_repeated_submit Brasilia "android" props
           [dec31_noon; dec31_noon + 1000] jan01_noon (draft "d1"));
    [reflexivity | discriminate | reflexivity |].
  repeat constructor; vm_compute; discriminate.
Defined.

Lemma fresh_form_needs_a_date_witness :
  let evs := [(dec31_noon + 1, SelectDoctor "d1"); (dec31_noon + 2, PressSubmit)] in
  initialState props dec31_noon =
    mkState EmptyString (Date_now dec31_noon) EmptyString false false ∅ ∧
  (run Brasilia "android" props evs (initialState props dec31_noon)).2 = [].
Proof.
  intros evs.
  apply (fresh_form_needs_a_date Brasilia "android" props dec31_noon evs);
    [reflexivity|].
  repeat constructor.
Defined.

Lemma picker_closes_after_change_witness :
  "android" ≠ "ios" ∧
  showDatePicker draft_jan31 = true ∧
  run Brasilia "android" props
      [(dec31_noon, DatePickerChange (Some (mkDate (Some feb15_00h))));
       (dec31_noon + 1, DatePickerChange (Some (mkDate (Some jan31_14h30))))]
      draft_jan31 =
  run Brasilia "android" props
      [(dec31_noon, DatePickerChange (Some (mkDate (Some feb15_00h))))]
      draft_jan31.
Proof.
  split; [discriminate|]. split; [reflexivity|].
  apply (picker_closes_after_change Brasilia "android" props dec31_noon
           (dec31_noon + 1) (Some (mkDate (Some feb15_00h)))
           (Some (mkDate (Some jan31_14h30))) draft_jan31).
  discriminate.
Defined.


Lemma validateForm_later_witness :
  errors (validateForm jan01_noon (draft "d1")).2 = ∅ ∧
  errors (validateForm (jan01_noon + 1) (draft "d1")).2 =
    {[ "date" := date_message ]} ∧
  errors (validateForm jan01_noon (draft "d1")).2 ⊆
  errors (validateForm (jan01_noon + 1) (draft "d1")).2.
Proof.
  split; [reflexivity|]. split; [reflexivity|].
  apply (validateForm_later jan01_noon (jan01_noon + 1) (draft "d1")).
  vm_compute. discriminate.
Defined.

Lemma handleSubmit_invalid_date_witness :
  let st := mkState "d1" (mkDate NaN) "" false false ∅ in
  errors (validateForm dec31_noon st).2 !! "date" = None ∧
  handleSubmit dec31_noon st = (st, [Appointment.mk "d1" (mkDate NaN) ""]).
Proof.
  intros st.
  destruct (handleSubmit_invalid_date dec31_noon st eq_refl) as [H1 H2].
  split; [exact H1|]. apply H2. discriminate.
Defined.

Lemma onDateChange_splices_when_day_fits_witness :
  let st' := onDateChange Brasilia "android" (Some (mkDate (Some feb15_00h)))
               (draft "d1") in
  getDate Brasilia (date (draft "d1")) = Some 1 ∧
  (getFullYear Brasilia (date st'), getMonth Brasilia (date st'),
   getDate Brasilia (date st')) = (Some 2025, Some 1, Some 15) ∧
  getFullYear Brasilia (date st') =
    getFullYear Brasilia (mkDate (Some feb15_00h)).
Proof.
  intros st'. split; [reflexivity|]. split; [reflexivity|].
  apply (onDateChange_splices_when_day_fits Brasilia "android" (-10800000)
           jan01_noon feb15_00h (draft "d1"));
    [reflexivity | by_evaluation | reflexivity | by_evaluation | by_evaluation
    | by_evaluation | by_evaluation].
Defined.

Lemma onDateChange_keeps_time_of_day_witness :
  let st' := onDateChange Brasilia "android" (Some (mkDate (Some feb15_00h)))
               draft_jan31 in
  getMonth Brasilia (date st') = Some 2 ∧
  getHours Brasilia (date st') = getHours Brasilia (date draft_jan31) ∧
  getMinutes Brasilia (date st') = getMinutes Brasilia (date draft_jan31).
Proof.
  intros st'. split; [reflexivity|].
  apply (onDateChange_keeps_time_of_day Brasilia "android" (-10800000)
           jan31_10h 1742043600000 (mkDate (Some feb15_00h)) draft_jan31);
    [reflexivity | reflexivity | by_evaluation | by_evaluation].
Defined.


Lemma onTimeChange_last_wins_witness :
  onTimeChange Brasilia "android" (Some (mkDate (Some jan31_14h30)))
    (onTimeChange Brasilia "android" (Some (mkDate (Some feb15_00h)))
       draft_jan31) =
  onTimeChange Brasilia "android" (Some (mkDate (Some jan31_14h30)))
    draft_jan31.
Proof.
  apply (onTimeChange_last_wins Brasilia "android" (-10800000) Brasilia_fixed
           jan31_10h feb15_00h jan31_14h30 draft_jan31);
    [reflexivity | by_evaluation].
Defined.

Lemma onTimeChange_shift_witness :
  ∃ t', date (onTimeChange Brasilia "android"
                (Some (mkDate (Some jan31_14h30))) draft_jan31) =
          mkDate (Some t') ∧
        t' - jan31_10h = (14 - 10) * msPerHour + (30 - 0) * msPerMinute.
Proof.
  apply (onTimeChange_shift Brasilia "android" (-10800000) Brasilia_fixed
           jan31_10h jan31_14h30 draft_jan31);
    [reflexivity | by_evaluation].
Defined.



End Witnesses.
